(** * SpartaWebSocket: the connect, disconnect and broadcast handlers

    A shallow embedding of [main.go].  The three Lambda handlers
    ([connectWorld], [disconnectWorld], [sendMessage]) and the helper
    [deleteConnection] are translated statement by statement into a small
    monad that records what a handler does to the outside world: DynamoDB
    requests, deliveries through the API Gateway management API, log lines
    and spawned goroutines.

    The handlers are modelled as the Sparta runtime invokes them: the
    context carries a logger under [sparta.ContextKeyLogger] and an AWS
    session can be created.

    Go values are represented as follows.
    - [string] and [[]byte] are [string] (a sequence of bytes);
    - a non-nil [error] is identified with the text its [Error()] method
      returns, and a possibly nil [error] is an [option];
    - a pointer that may be nil is an [option];
    - [map[string]T] is a [gmap string T]; indexing an absent key gives the
      zero value of [T], which for pointer types is nil. *)

From Stdlib Require Import Ascii NArith.
From stdpp Require Import base option list strings gmap.

(** ** Bytes *)

Abbreviation byte := ascii (only parsing).

Definition code (c : byte) : nat := nat_of_ascii c.

Definition is_byte (c d : byte) : bool := Ascii.eqb c d.

(** The double quote. *)
Definition dquote : byte := "034".

Definition in_range (lo hi c : byte) : bool :=
  (code lo <=? code c) && (code c <=? code hi).

Definition is_digit (c : byte) : bool := in_range "0" "9" c.

Definition is_digit19 (c : byte) : bool := in_range "1" "9" c.

Definition is_hex (c : byte) : bool :=
  in_range "0" "9" c || in_range "a" "f" c || in_range "A" "F" c.

Definition hex_digit (n : nat) : byte :=
  match String.get n "0123456789abcdef" with
  | Some c => c
  | None => "0"
  end.

(** [strings.Contains(s, substr)] *)
Fixpoint Contains (s substr : string) : bool :=
  String.prefix substr s ||
  match s with
  | EmptyString => false
  | String _ s' => Contains s' substr
  end.

(** ** encoding/json, at the target type [map[string]*json.RawMessage] *)

Module json.

Definition RawMessage := string.

(** *** scanner.go: the syntax checker *)

Inductive parseState := parseObjectKey | parseObjectValue | parseArrayValue.

(** The scanner's [step] field.  The four states of a [\u] escape are
    [stateInStringEscU n] with [n] the number of hex digits read; the ten
    states of the literals [true], [false] and [null] are [stateLit w r]
    with [w] the literal and [r] what is left of it to read. *)
Inductive stepFn :=
| stateBeginValueOrEmpty
| stateBeginValue
| stateBeginStringOrEmpty
| stateBeginString
| stateEndValue
| stateEndTop
| stateInString
| stateInStringEsc
| stateInStringEscU (n : nat)
| stateNeg
| state1
| state0
| stateDot
| stateDot0
| stateE
| stateESign
| stateE0
| stateLit (w : string) (r : string).

(** [parseStack] is the Go scanner's [parseState] slice, innermost first. *)
Record scanner := Scanner {
  step : stepFn;
  parseStack : list parseState;
  endTop : bool;
  bytes : nat
}.

Record SyntaxError := { msg : string; Offset : nat }.

Inductive scanResult :=
| scanOk (s : scanner)
| scanError (e : SyntaxError).

Definition maxNestingDepth : N := 10000.

Definition isSpace (c : byte) : bool :=
  is_byte c " " || is_byte c "009" || is_byte c "013" || is_byte c "010".

(** [strconv.Quote(string(c))] without its surrounding quotes, for one
    byte [c] converted to a rune. *)
Definition quoteRune (c : byte) : string :=
  let n := code c in
  let esc (e : byte) := String "\" (String e EmptyString) in
  if is_byte c "\" then esc "\"%char
  else if in_range " " "~" c then String c EmptyString
  else if n =? 7 then esc "a"%char
  else if n =? 8 then esc "b"%char
  else if n =? 12 then esc "f"%char
  else if n =? 10 then esc "n"%char
  else if n =? 13 then esc "r"%char
  else if n =? 9 then esc "t"%char
  else if n =? 11 then esc "v"%char
  else if (n <? 32) || (n =? 127) then
    String "\" (String "x" (String (hex_digit (n / 16))
      (String (hex_digit (n mod 16)) EmptyString)))
  else if (n <? 161) || (n =? 173) then
    String "\" (String "u" (String "0" (String "0"
      (String (hex_digit (n / 16))
        (String (hex_digit (n mod 16)) EmptyString)))))
  else
    String (ascii_of_nat (192 + n / 64))
      (String (ascii_of_nat (128 + n mod 64)) EmptyString).

Definition quoteChar (c : byte) : string :=
  if is_byte c "'" then "'\''"
  else if is_byte c dquote then String "'" (String dquote (String "'" EmptyString))
  else "'" +:+ quoteRune c +:+ "'".

Definition error (s : scanner) (c : byte) (context : string) : scanResult :=
  scanError {| msg := "invalid character " +:+ quoteChar c +:+ " " +:+ context;
               Offset := bytes s |}.

Definition goto (s : scanner) (f : stepFn) : scanResult :=
  scanOk (Scanner f (parseStack s) (endTop s) (bytes s)).

Definition pushParseState (s : scanner) (c : byte) (newParseState : parseState)
    (successState : stepFn) : scanResult :=
  let stack := newParseState :: parseStack s in
  if (N.of_nat (length stack) <=? maxNestingDepth)%N
  then scanOk (Scanner successState stack (endTop s) (bytes s))
  else error s c "exceeded max depth".

Definition popParseState (s : scanner) : scanResult :=
  match tail (parseStack s) with
  | [] => scanOk (Scanner stateEndTop [] true (bytes s))
  | rest => scanOk (Scanner stateEndValue rest (endTop s) (bytes s))
  end.

Definition replaceTop (s : scanner) (p : parseState) (f : stepFn) : scanResult :=
  scanOk (Scanner f (p :: tail (parseStack s)) (endTop s) (bytes s)).

(** The Go function records the error and answers [scanEnd]; the next call
    of [step], or [eof], then reports it.  Here it is reported at once. *)
Definition stateEndTop_fn (s : scanner) (c : byte) : scanResult :=
  if isSpace c then scanOk s else error s c "after top-level value".

Definition stateEndValue_fn (s : scanner) (c : byte) : scanResult :=
  match parseStack s with
  | [] =>
      stateEndTop_fn (Scanner stateEndTop [] true (bytes s)) c
  | ps :: _ =>
      if isSpace c then goto s stateEndValue
      else match ps with
      | parseObjectKey =>
          if is_byte c ":" then replaceTop s parseObjectValue stateBeginValue
          else error s c "after object key"
      | parseObjectValue =>
          if is_byte c "," then replaceTop s parseObjectKey stateBeginString
          else if is_byte c "}" then popParseState s
          else error s c "after object key:value pair"
      | parseArrayValue =>
          if is_byte c "," then goto s stateBeginValue
          else if is_byte c "]" then popParseState s
          else error s c "after array element"
      end
  end.

Definition stateBeginValue_fn (s : scanner) (c : byte) : scanResult :=
  if isSpace c then scanOk s
  else if is_byte c "{" then pushParseState s c parseObjectKey stateBeginStringOrEmpty
  else if is_byte c "[" then pushParseState s c parseArrayValue stateBeginValueOrEmpty
  else if is_byte c dquote then goto s stateInString
  else if is_byte c "-" then goto s stateNeg
  else if is_byte c "0" then goto s state0
  else if is_byte c "t" then goto s (stateLit "true" "rue")
  else if is_byte c "f" then goto s (stateLit "false" "alse")
  else if is_byte c "n" then goto s (stateLit "null" "ull")
  else if is_digit19 c then goto s state1
  else error s c "looking for beginning of value".

Definition stateBeginValueOrEmpty_fn (s : scanner) (c : byte) : scanResult :=
  if isSpace c then scanOk s
  else if is_byte c "]" then stateEndValue_fn s c
  else stateBeginValue_fn s c.

Definition stateBeginString_fn (s : scanner) (c : byte) : scanResult :=
  if isSpace c then scanOk s
  else if is_byte c dquote then goto s stateInString
  else error s c "looking for beginning of object key string".

Definition stateBeginStringOrEmpty_fn (s : scanner) (c : byte) : scanResult :=
  if isSpace c then scanOk s
  else if is_byte c "}" then
    stateEndValue_fn
      (Scanner (step s) (parseObjectValue :: tail (parseStack s)) (endTop s) (bytes s)) c
  else stateBeginString_fn s c.

Definition stateInString_fn (s : scanner) (c : byte) : scanResult :=
  if is_byte c dquote then goto s stateEndValue
  else if is_byte c "\" then goto s stateInStringEsc
  else if code c <? 32 then error s c "in string literal"
  else scanOk s.

Definition stateInStringEsc_fn (s : scanner) (c : byte) : scanResult :=
  if is_byte c "b" || is_byte c "f" || is_byte c "n" || is_byte c "r"
     || is_byte c "t" || is_byte c "\" || is_byte c "/" || is_byte c dquote
  then goto s stateInString
  else if is_byte c "u" then goto s (stateInStringEscU 0)
  else error s c "in string escape code".

Definition stateInStringEscU_fn (n : nat) (s : scanner) (c : byte) : scanResult :=
  if is_hex c then
    goto s (if n <? 3 then stateInStringEscU (S n) else stateInString)
  else error s c "in \u hexadecimal character escape".

Definition stateNeg_fn (s : scanner) (c : byte) : scanResult :=
  if is_byte c "0" then goto s state0
  else if is_digit19 c then goto s state1
  else error s c "in numeric literal".

Definition stateE0_fn (s : scanner) (c : byte) : scanResult :=
  if is_digit c then scanOk s else stateEndValue_fn s c.

Definition stateESign_fn (s : scanner) (c : byte) : scanResult :=
  if is_digit c then goto s stateE0
  else error s c "in exponent of numeric literal".

Definition stateE_fn (s : scanner) (c : byte) : scanResult :=
  if is_byte c "+" || is_byte c "-" then goto s stateESign
  else stateESign_fn s c.

Definition stateDot0_fn (s : scanner) (c : byte) : scanResult :=
  if is_digit c then scanOk s
  else if is_byte c "e" || is_byte c "E" then goto s stateE
  else stateEndValue_fn s c.

Definition stateDot_fn (s : scanner) (c : byte) : scanResult :=
  if is_digit c then goto s stateDot0
  else error s c "after decimal point in numeric literal".

Definition state0_fn (s : scanner) (c : byte) : scanResult :=
  if is_byte c "." then goto s stateDot
  else if is_byte c "e" || is_byte c "E" then goto s stateE
  else stateEndValue_fn s c.

Definition state1_fn (s : scanner) (c : byte) : scanResult :=
  if is_digit c then goto s state1 else state0_fn s c.

Definition stateLit_fn (w r : string) (s : scanner) (c : byte) : scanResult :=
  match r with
  | String e r' =>
      if is_byte c e then
        goto s (match r' with EmptyString => stateEndValue | _ => stateLit w r' end)
      else error s c ("in literal " +:+ w +:+ " (expecting " +:+ quoteChar e +:+ ")")
  | EmptyString => stateEndValue_fn s c
  end.

Definition apply_step (s : scanner) (c : byte) : scanResult :=
  match step s with
  | stateBeginValueOrEmpty => stateBeginValueOrEmpty_fn s c
  | stateBeginValue => stateBeginValue_fn s c
  | stateBeginStringOrEmpty => stateBeginStringOrEmpty_fn s c
  | stateBeginString => stateBeginString_fn s c
  | stateEndValue => stateEndValue_fn s c
  | stateEndTop => stateEndTop_fn s c
  | stateInString => stateInString_fn s c
  | stateInStringEsc => stateInStringEsc_fn s c
  | stateInStringEscU n => stateInStringEscU_fn n s c
  | stateNeg => stateNeg_fn s c
  | state1 => state1_fn s c
  | state0 => state0_fn s c
  | stateDot => stateDot_fn s c
  | stateDot0 => stateDot0_fn s c
  | stateE => stateE_fn s c
  | stateESign => stateESign_fn s c
  | stateE0 => stateE0_fn s c
  | stateLit w r => stateLit_fn w r s c
  end.

Definition reset : scanner := Scanner stateBeginValue [] false 0.

Definition eof (s : scanner) : option SyntaxError :=
  if endTop s then None
  else match apply_step s " " with
       | scanError e => Some e
       | scanOk s' =>
           if endTop s' then None
           else Some {| msg := "unexpected end of JSON input"; Offset := bytes s |}
       end.

Fixpoint checkValid_from (s : scanner) (data : string) : option SyntaxError :=
  match data with
  | EmptyString => eof s
  | String c data' =>
      let s1 := Scanner (step s) (parseStack s) (endTop s) (S (bytes s)) in
      match apply_step s1 c with
      | scanError e => Some e
      | scanOk s2 => checkValid_from s2 data'
      end
  end.

Definition checkValid (data : string) : option SyntaxError :=
  checkValid_from reset data.

(** *** unicode/utf8 and unicode/utf16, as [unquoteBytes] uses them *)

Definition RuneError : N := 65533.

Definition byteN (c : byte) : N := N_of_ascii c.

Definition cont (lo hi : N) (c : byte) : bool :=
  ((lo <=? byteN c) && (byteN c <=? hi))%N.

(** [utf8.DecodeRune]: the rune at the head of [p] and its width.  Any
    ill-formed sequence decodes to [(RuneError, 1)]. *)
Definition DecodeRune (p : string) : N * nat :=
  match p with
  | EmptyString => (RuneError, 0)
  | String p0 t =>
      let b0 := byteN p0 in
      if (b0 <? 128)%N then (b0, 1)
      else if (b0 <? 194)%N || (244 <? b0)%N then (RuneError, 1)
      else
        let sz := if (b0 <? 224)%N then 2 else if (b0 <? 240)%N then 3 else 4 in
        let lo := if (b0 =? 224)%N then 160%N
                  else if (b0 =? 240)%N then 144%N else 128%N in
        let hi := if (b0 =? 237)%N then 159%N
                  else if (b0 =? 244)%N then 143%N else 191%N in
        match t with
        | String p1 t1 =>
            if negb (cont lo hi p1) then (RuneError, 1)
            else if sz =? 2 then
              (((N.land b0 31) * 64 + N.land (byteN p1) 63)%N, 2)
            else match t1 with
            | String p2 t2 =>
                if negb (cont 128 191 p2) then (RuneError, 1)
                else if sz =? 3 then
                  (((N.land b0 15) * 4096 + (N.land (byteN p1) 63) * 64
                    + N.land (byteN p2) 63)%N, 3)
                else match t2 with
                | String p3 _ =>
                    if negb (cont 128 191 p3) then (RuneError, 1)
                    else
                      (((N.land b0 7) * 262144 + (N.land (byteN p1) 63) * 4096
                        + (N.land (byteN p2) 63) * 64 + N.land (byteN p3) 63)%N, 4)
                | EmptyString => (RuneError, 1)
                end
            | EmptyString => (RuneError, 1)
            end
        | EmptyString => (RuneError, 1)
        end
  end.

Definition IsSurrogate (r : N) : bool := ((55296 <=? r) && (r <? 57344))%N.

Definition chr (n : N) : string := String (ascii_of_N n) EmptyString.

(** [utf8.EncodeRune] *)
Definition EncodeRune (r0 : N) : string :=
  let r := if (1114111 <? r0)%N || IsSurrogate r0 then RuneError else r0 in
  if (r <=? 127)%N then chr r
  else if (r <=? 2047)%N then
    chr (192 + r / 64) +:+ chr (128 + r mod 64)
  else if (r <=? 65535)%N then
    chr (224 + r / 4096) +:+ chr (128 + (r / 64) mod 64) +:+ chr (128 + r mod 64)
  else
    chr (240 + r / 262144) +:+ chr (128 + (r / 4096) mod 64)
      +:+ chr (128 + (r / 64) mod 64) +:+ chr (128 + r mod 64).

(** [utf16.DecodeRune] *)
Definition DecodeSurrogates (r1 r2 : N) : N :=
  if ((55296 <=? r1) && (r1 <? 56320) && (56320 <=? r2) && (r2 <? 57344))%N
  then ((r1 - 55296) * 1024 + (r2 - 56320) + 65536)%N
  else RuneError.

Definition hexval (c : byte) : option N :=
  if in_range "0" "9" c then Some (byteN c - 48)%N
  else if in_range "a" "f" c then Some (byteN c - 87)%N
  else if in_range "A" "F" c then Some (byteN c - 55)%N
  else None.

(** [getu4]: the code unit of a [\uXXXX] escape at the head of [s], if
    there is one. *)
Definition getu4 (s : string) : option N :=
  match s with
  | String b (String u (String h1 (String h2 (String h3 (String h4 _))))) =>
      if is_byte b "\" && is_byte u "u" then
        a ← hexval h1; b ← hexval h2; c ← hexval h3; d ← hexval h4;
        Some (a * 4096 + b * 256 + c * 16 + d)%N
      else None
  | _ => None
  end.

(** *** decode.go *)

(** The body of [unquoteBytes], between the quotes.  [skip] counts the
    bytes already consumed by the escape or rune that precedes. *)
Fixpoint unquote_from (skip : nat) (s : string) : option string :=
  match s with
  | EmptyString => Some EmptyString
  | String c s' =>
      match skip with
      | S k => unquote_from k s'
      | O =>
          if is_byte c "\" then
            match s' with
            | EmptyString => None
            | String e _ =>
                if is_byte e dquote || is_byte e "\" || is_byte e "/" || is_byte e "'"
                then t ← unquote_from 1 s'; Some (String e t)
                else if is_byte e "b" then t ← unquote_from 1 s'; Some (String "008" t)
                else if is_byte e "f" then t ← unquote_from 1 s'; Some (String "012" t)
                else if is_byte e "n" then t ← unquote_from 1 s'; Some (String "010" t)
                else if is_byte e "r" then t ← unquote_from 1 s'; Some (String "013" t)
                else if is_byte e "t" then t ← unquote_from 1 s'; Some (String "009" t)
                else if is_byte e "u" then
                  rr ← getu4 s;
                  if IsSurrogate rr then
                    let dec := DecodeSurrogates rr
                                 (default 0%N (getu4 (String.substring 6 6 s))) in
                    if (dec =? RuneError)%N
                    then t ← unquote_from 5 s'; Some (EncodeRune RuneError +:+ t)
                    else t ← unquote_from 11 s'; Some (EncodeRune dec +:+ t)
                  else t ← unquote_from 5 s'; Some (EncodeRune rr +:+ t)
                else None
            end
          else if is_byte c dquote || (code c <? 32) then None
          else if code c <? 128 then t ← unquote_from 0 s'; Some (String c t)
          else
            let '(rr, size) := DecodeRune s in
            t ← unquote_from (size - 1) s'; Some (EncodeRune rr +:+ t)
      end
  end.

Definition unquoteBytes (s : string) : option string :=
  let n := String.length s in
  if (n <? 2) || negb (String.prefix (String dquote EmptyString) s)
     || negb (String.eqb (String.substring (n - 1) 1 s) (String dquote EmptyString))
  then None
  else unquote_from 0 (String.substring 1 (n - 2) s).

Fixpoint trimLeft (s : string) : string :=
  match s with
  | String c s' => if isSpace c then trimLeft s' else s
  | EmptyString => EmptyString
  end.

(** A segment is collected back to front: [trim_rev] strips the white
    space on both sides and puts it in order. *)
Definition trim_rev (seg : string) : string :=
  trimLeft (String.rev (trimLeft seg)).

Definition objMap := gmap string (option RawMessage).

(** [decodeState.object] on a map whose elements are [*RawMessage]:
    the literal [null] stores a nil pointer, any other value is copied as
    it is written ([RawMessage.UnmarshalJSON]); a key that comes twice
    keeps its last value.  The scanner runs over the text again and its
    stack tells the separators of the outermost object from the bytes
    inside keys and values.  The text has passed [checkValid] by then, so
    the scanner does not fail and every key unquotes. *)
Definition storeMember (key : option string) (seg : string) (m : objMap) : objMap :=
  match key with
  | None => m
  | Some k =>
      let item := trim_rev seg in
      <[ k := if String.prefix "n" item then None else Some item ]> m
  end.

Fixpoint object_from (s : scanner) (key : option string) (seg : string)
    (m : objMap) (data : string) : objMap :=
  match data with
  | EmptyString => m
  | String c data' =>
      match apply_step s c with
      | scanError _ => m
      | scanOk s' =>
          match parseStack s, parseStack s' with
          | [], [parseObjectKey] =>
              object_from s' None EmptyString m data'
          | [parseObjectKey], [parseObjectValue] =>
              object_from s' (unquoteBytes (trim_rev seg)) EmptyString m data'
          | [parseObjectValue], [parseObjectKey] =>
              object_from s' None EmptyString (storeMember key seg m) data'
          | [_], [] =>
              storeMember key seg m
          | _, _ =>
              object_from s' key (String c seg) m data'
          end
      end
  end.

Definition UnmarshalTypeError (Value : string) : string :=
  "json: cannot unmarshal " +:+ Value
    +:+ " into Go value of type map[string]*json.RawMessage".

(** [json.Unmarshal(data, &objMap)] for [var objMap
    map[string]*json.RawMessage], which is nil before the call: the map
    after the call (a nil map reads as the empty one) and the error. *)
Definition Unmarshal (data : string) : objMap * option string :=
  match checkValid data with
  | Some e => (∅, Some (msg e))
  | None =>
      match trimLeft data with
      | EmptyString => (∅, None)
      | String c _ =>
          if is_byte c "{" then (object_from reset None EmptyString ∅ data, None)
          else if is_byte c "[" then (∅, Some (UnmarshalTypeError "array"))
          else if is_byte c dquote then (∅, Some (UnmarshalTypeError "string"))
          else if is_byte c "n" then (∅, None)
          else if is_byte c "t" || is_byte c "f" then (∅, Some (UnmarshalTypeError "bool"))
          else (∅, Some (UnmarshalTypeError "number"))
      end
  end.

End json.

(** ** The outside world *)

(** A non-nil Go [error], identified with its [Error()] text. *)
Abbreviation error := string (only parsing).

Module awsEvents.

Record APIGatewayWebsocketProxyRequestContext := {
  ConnectionID : string;
  DomainName : string;
  Stage : string
}.

Record APIGatewayWebsocketProxyRequest := {
  RequestContext : APIGatewayWebsocketProxyRequestContext;
  Body : string
}.

End awsEvents.

Module dynamodb.

(** Only the string member [S] of an attribute value is read. *)
Record AttributeValue := { S : option string }.

(** [map[string]*dynamodb.AttributeValue]: a key that is absent, or bound
    to a nil pointer, looks up as [None]. *)
Abbreviation Item := (gmap string AttributeValue).

Record ScanOutput := { Items : list Item }.

End dynamodb.

Module apigwManagement.

Definition ErrCodeGoneException : string := "GoneException".

(** What a [PostToConnectionWithContext] call does: it returns a nil
    error, returns an error, or does not return. *)
Inductive PostToConnectionOutcome :=
| Posted
| PostFailed (respErr : error)
| NoResponse.

End apigwManagement.

Import awsEvents.

Definition envKeyTableName : string := "CONNECTIONS_TABLENAME".
Definition ddbAttributeConnectionID : string := "connectionID".

Record wsResponse := {
  StatusCode : Z;
  Body : string
}.

(** What an invocation meets outside the process: whether the DynamoDB
    backend answers a request with an error (for a scan, page by page), how
    many rows it puts on a scan page ([pageLimit] and one more), and what the
    API Gateway endpoint built from the request answers to a post. *)
Record World := {
  PutItem_err : option error;
  DeleteItem_err : option error;
  Scan_err : nat → option error;
  pageLimit : nat;
  post : string → json.RawMessage → apigwManagement.PostToConnectionOutcome
}.

(** ** The handler monad *)

(** What a handler does, in the order it does it. *)
Inductive event :=
| LogInfo (message field value : string)
| LogWarn (message field value : string)
| Scan (page : nat)
| PostToConnection (ConnectionId : string) (Data : json.RawMessage)
| Go_deleteConnection (connectionID : string).

(** The table named by [CONNECTIONS_TABLENAME] and the events so far. *)
Record state := State {
  table : list dynamodb.Item;
  trace : list event
}.

(** A computation returns, panics, or waits for ever on a call. *)
Inductive exit (A : Type) :=
| Done (a : A)
| Panic (reason : string)
| Blocked.
Arguments Done {A} a.
Arguments Panic {A} reason.
Arguments Blocked {A}.

Definition M (A : Type) : Type := state → exit A * state.

#[global] Instance M_ret : MRet M := λ A a st, (Done a, st).

#[global] Instance M_bind : MBind M := λ A B f m st,
  match m st with
  | (Done a, st') => f a st'
  | (Panic reason, st') => (Panic reason, st')
  | (Blocked, st') => (Blocked, st')
  end.

Definition emit (e : event) : M unit :=
  λ st, (Done tt, State (table st) (trace st ++ [e])).

Definition panic {A} (reason : string) : M A := λ st, (Panic reason, st).

Definition nilDereference : string :=
  "runtime error: invalid memory address or nil pointer dereference".

(** Reading through a pointer, or calling a method of an interface value:
    nil panics. *)
Definition deref {A} (p : option A) : M A :=
  match p with
  | Some a => mret a
  | None => panic nilDereference
  end.

(** [for _, x := range l { body }] *)
Fixpoint range {A} (l : list A) (body : A → M unit) : M unit :=
  match l with
  | [] => mret tt
  | x :: l' => body x;; range l' body
  end.

(** ** DynamoDB *)

Definition key_of (item : dynamodb.Item) : option string :=
  item !! ddbAttributeConnectionID ≫= dynamodb.S.

Definition keyed (connectionID : string) : dynamodb.Item :=
  {[ ddbAttributeConnectionID := {| dynamodb.S := Some connectionID |} ]}.

(** Modelled from the spec: the store's [PutItem], which belongs to the
    DynamoDB service and is not among the sources.  The registry table is
    keyed by the connection identifier; [insert(id)] succeeds idempotently
    (re-inserting an existing id is a no-op overwrite) and fails with
    StoreUnavailable on a backend error.  The row with the key of [item] is
    replaced; on an error the table is left as it is. *)
Definition PutItem (w : World) (item : dynamodb.Item) : M (option error) :=
  λ st,
    match PutItem_err w with
    | Some e => (Done (Some e), st)
    | None =>
        (Done None,
         State (filter (λ row, key_of row ≠ key_of item) (table st) ++ [item])
               (trace st))
    end.

(** Modelled from the spec: the store's [DeleteItem], which belongs to the
    DynamoDB service and is not among the sources.  [delete(id)] succeeds
    even if [id] is absent and fails with StoreUnavailable on a backend
    error; on an error the table is left as it is. *)
Definition DeleteItem (w : World) (key : dynamodb.Item) : M (option error) :=
  λ st,
    match DeleteItem_err w with
    | Some e => (Done (Some e), st)
    | None =>
        (Done None,
         State (filter (λ row, key_of row ≠ key_of key) (table st)) (trace st))
    end.

(** Modelled from the spec: the pages of the store's [Scan], which
    belongs to the DynamoDB service and is not among the sources.  [scan()]
    produces the rows page by page, in the backend's order.  A page is
    closed when it holds [limit + 1] rows and another row follows; the scan
    of an empty table has one empty page. *)
Fixpoint paginate_from (limit room : nat) (cur : list dynamodb.Item)
    (rows : list dynamodb.Item) : list (list dynamodb.Item) :=
  match rows with
  | [] => [reverse cur]
  | row :: rows' =>
      match room with
      | O => reverse cur :: paginate_from limit limit [row] rows'
      | Datatypes.S room' => paginate_from limit room' (row :: cur) rows'
      end
  end.

Definition paginate (limit : nat) (rows : list dynamodb.Item) :=
  paginate_from limit (limit + 1) [] rows.

(** Modelled from the spec: the SDK's [ScanPagesWithContext], which is not
    among the sources.  Each page is delivered to the consumer before the
    next is fetched, and a StoreUnavailable failure aborts the remaining
    pages: request a page, hand it to [fn], stop when [fn] answers false or
    a request fails, and return the error of the request that failed. *)
Fixpoint ScanPages_from (w : World) (n : nat) (pages : list (list dynamodb.Item))
    (fn : dynamodb.ScanOutput → bool → M bool) : M (option error) :=
  match pages with
  | [] => mret None
  | page :: rest =>
      emit (Scan n);;
      match Scan_err w n with
      | Some e => mret (Some e)
      | None =>
          more ← fn {| dynamodb.Items := page |} (bool_decide (rest = []));
          if more : bool then ScanPages_from w (n + 1) rest fn else mret None
      end
  end.

Definition ScanPagesWithContext (w : World)
    (fn : dynamodb.ScanOutput → bool → M bool) : M (option error) :=
  λ st, ScanPages_from w 0 (paginate (pageLimit w) (table st)) fn st.

(** ** API Gateway management API *)

Definition PostToConnectionWithContext (w : World) (ConnectionId : string)
    (Data : json.RawMessage) : M (option error) :=
  emit (PostToConnection ConnectionId Data);;
  match post w ConnectionId Data with
  | apigwManagement.Posted => mret None
  | apigwManagement.PostFailed respErr => mret (Some respErr)
  | apigwManagement.NoResponse => λ st, (Blocked, st)
  end.

(** ** main.go *)

Definition deleteConnection (w : World) (connectionID : string) : M (option error) :=
  let delItemInput := keyed connectionID in
  DeleteItem w delItemInput.

(** [go deleteConnection(...)]: the call is handed to a new goroutine and
    the statement is over; what the call returns is dropped. *)
Definition go_deleteConnection (connectionID : string) : M unit :=
  emit (Go_deleteConnection connectionID).

Definition connectWorld (w : World) (request : APIGatewayWebsocketProxyRequest)
    : M (wsResponse * option error) :=
  let putItemInput := keyed (ConnectionID (RequestContext request)) in
  putItemErr ← PutItem w putItemInput;
  match putItemErr with
  | Some e =>
      mret ({| StatusCode := 500; Body := "Failed to connect: " +:+ e |}, None)
  | None =>
      mret ({| StatusCode := 200; Body := "Connected." |}, None)
  end.

Definition disconnectWorld (w : World) (request : APIGatewayWebsocketProxyRequest)
    : M (wsResponse * option error) :=
  delItemErr ← deleteConnection w (ConnectionID (RequestContext request));
  match delItemErr with
  | Some e =>
      mret ({| StatusCode := 500; Body := "Failed to disconnect: " +:+ e |}, None)
  | None =>
      mret ({| StatusCode := 200; Body := "Disconnected." |}, None)
  end.

(** [objMap["data"]]: nil when the key is absent or bound to nil. *)
Definition index_data (objMap : json.objMap) : option json.RawMessage :=
  objMap !! "data" ≫= id.

(** The body of the loop over [output.Items] in [scanCallback]. *)
Definition eachItem_body (w : World) (objMap : json.objMap)
    (eachItem : dynamodb.Item) : M unit :=
  attr ← deref (eachItem !! ddbAttributeConnectionID);
  let receiverConnection := default EmptyString (dynamodb.S attr) in
  Data ← deref (index_data objMap);
  respErr ← PostToConnectionWithContext w receiverConnection Data;
  match respErr with
  | Some e =>
      if negb (String.eqb receiverConnection EmptyString)
         && Contains e apigwManagement.ErrCodeGoneException
      then go_deleteConnection receiverConnection
      else emit (LogWarn "Failed to post to connection" "Error" e)
  | None => mret tt
  end.

Definition scanCallback (w : World) (objMap : json.objMap)
    (output : dynamodb.ScanOutput) (lastPage : bool) : M bool :=
  range (dynamodb.Items output) (eachItem_body w objMap);;
  mret true.

Definition sendMessage (w : World) (request : APIGatewayWebsocketProxyRequest)
    : M (wsResponse * option error) :=
  let endpointURL :=
    DomainName (RequestContext request) +:+ "/" +:+ Stage (RequestContext request) in
  emit (LogInfo "API Gateway Endpoint" "Endpoint" endpointURL);;
  let '(objMap, unmarshalErr) := json.Unmarshal (awsEvents.Body request) in
  if bool_decide (unmarshalErr ≠ None) || bool_decide (index_data objMap = None)
  then
    cause ← deref unmarshalErr;
    mret ({| StatusCode := 500;
             Body := "Failed to unmarshal request: " +:+ cause |}, None)
  else
    scanItemErr ← ScanPagesWithContext w (scanCallback w objMap);
    match scanItemErr with
    | Some e =>
        mret ({| StatusCode := 500; Body := "Failed to send message: " +:+ e |}, None)
    | None =>
        mret ({| StatusCode := 200; Body := "Data sent." |}, None)
    end.

(** A handler started on a table, with nothing done yet. *)
Definition run {A} (m : M A) (rows : list dynamodb.Item) : exit A * state :=
  m (State rows []).

(** The goroutines an invocation has started, in the order they were. *)
Definition spawned (tr : list event) : list string :=
  omap (λ e, match e with Go_deleteConnection c => Some c | _ => None end) tr.

(** The goroutines run to their end, each against the backend as it is
    then; nobody reads what [deleteConnection] returns. *)
Fixpoint settle (ws : list World) (ids : list string) (rows : list dynamodb.Item)
    : list dynamodb.Item :=
  match ids, ws with
  | c :: ids', w :: ws' =>
      settle ws' ids' (table (snd (deleteConnection w c (State rows []))))
  | _, _ => rows
  end.

(** ** Reading a trace *)

Definition deliveries (tr : list event) : list (string * json.RawMessage) :=
  omap (λ e, match e with PostToConnection c d => Some (c, d) | _ => None end) tr.

Definition scans (tr : list event) : list nat :=
  omap (λ e, match e with Scan n => Some n | _ => None end) tr.

Definition warnings (tr : list event) : list string :=
  omap (λ e, match e with LogWarn _ _ v => Some v | _ => None end) tr.

(** The connection a scanned row is delivered to: [receiverConnection]. *)
Definition receiver (item : dynamodb.Item) : string := default EmptyString (key_of item).

Definition has_connectionID (item : dynamodb.Item) : Prop :=
  is_Some (item !! ddbAttributeConnectionID).

(** The post to the row's connection comes back, with or without error. *)
Definition answered (w : World) (d : json.RawMessage) (item : dynamodb.Item) : Prop :=
  post w (receiver item) d ≠ apigwManagement.NoResponse.

(** The delivery outcomes of the specification. *)
Definition Gone (w : World) (d : json.RawMessage) (c : string) : bool :=
  match post w c d with
  | apigwManagement.PostFailed e => Contains e apigwManagement.ErrCodeGoneException
  | _ => false
  end.

Definition Transient (w : World) (d : json.RawMessage) (c : string) : bool :=
  match post w c d with
  | apigwManagement.PostFailed e =>
      negb (Contains e apigwManagement.ErrCodeGoneException)
  | _ => false
  end.

Definition failure (w : World) (d : json.RawMessage) (c : string) : option string :=
  match post w c d with
  | apigwManagement.PostFailed e => Some e
  | _ => None
  end.

(** The events one row, one page and a run of pages leave when every call
    comes back. *)
Definition reaction (w : World) (d : json.RawMessage) (c : string) : list event :=
  match post w c d with
  | apigwManagement.PostFailed e =>
      if negb (String.eqb c EmptyString) && Contains e apigwManagement.ErrCodeGoneException
      then [Go_deleteConnection c]
      else [LogWarn "Failed to post to connection" "Error" e]
  | _ => []
  end.

Definition item_events (w : World) (d : json.RawMessage) (item : dynamodb.Item)
    : list event :=
  PostToConnection (receiver item) d :: reaction w d (receiver item).

Definition page_events (w : World) (d : json.RawMessage) (page : list dynamodb.Item)
    : list event :=
  page ≫= item_events w d.

Fixpoint scan_events (w : World) (d : json.RawMessage) (n : nat)
    (pages : list (list dynamodb.Item)) : list event :=
  match pages with
  | [] => []
  | page :: rest => Scan n :: page_events w d page ++ scan_events w d (n + 1) rest
  end.

Definition endpoint_line (request : APIGatewayWebsocketProxyRequest) : event :=
  LogInfo "API Gateway Endpoint" "Endpoint"
    (DomainName (RequestContext request) +:+ "/" +:+ Stage (RequestContext request)).

(** ** The monad, step by step *)

Lemma bind_run {A B} (m : M A) (f : A → M B) (st : state) :
  (m ≫= f) st =
  match m st with
  | (Done a, st') => f a st'
  | (Panic reason, st') => (Panic reason, st')
  | (Blocked, st') => (Blocked, st')
  end.
Proof. reflexivity. Qed.

Lemma emit_run (e : event) (st : state) :
  emit e st = (Done tt, State (table st) (trace st ++ [e])).
Proof. reflexivity. Qed.

Lemma state_eta (st : state) : State (table st) (trace st ++ []) = st.
Proof. destruct st; simpl; by rewrite app_nil_r. Qed.

Lemma receiver_attr (item : dynamodb.Item) (attr : dynamodb.AttributeValue) :
  item !! ddbAttributeConnectionID = Some attr →
  receiver item = default EmptyString (dynamodb.S attr).
Proof. intros H. unfold receiver, key_of. by rewrite H. Qed.

Lemma concat_paginate_from (limit room : nat) (cur rows : list dynamodb.Item) :
  concat (paginate_from limit room cur rows) = reverse cur ++ rows.
Proof.
  revert room cur. induction rows as [|row rows IH]; intros room cur; simpl.
  - by rewrite !app_nil_r.
  - destruct room as [|room]; simpl; rewrite IH.
    + by rewrite reverse_singleton.
    + by rewrite reverse_cons, <- app_assoc.
Qed.

Lemma concat_paginate (limit : nat) (rows : list dynamodb.Item) :
  concat (paginate limit rows) = rows.
Proof. unfold paginate. by rewrite concat_paginate_from. Qed.

Lemma paginate_nonempty (limit : nat) (rows : list dynamodb.Item) :
  0 < length (paginate limit rows).
Proof.
  unfold paginate. generalize (limit + 1) (@nil dynamodb.Item).
  induction rows as [|row rows IH]; intros room cur; simpl; [lia|].
  destruct room; simpl; [lia | apply IH].
Qed.

Section Fanout.

Variable w : World.
Variable objMap : json.objMap.
Variable d : json.RawMessage.
Hypothesis Hdata : index_data objMap = Some d.

Lemma post_run (c : string) (st : state) :
  PostToConnectionWithContext w c d st =
  let st' := State (table st) (trace st ++ [PostToConnection c d]) in
  match post w c d with
  | apigwManagement.Posted => (Done None, st')
  | apigwManagement.PostFailed e => (Done (Some e), st')
  | apigwManagement.NoResponse => (Blocked, st')
  end.
Proof.
  unfold PostToConnectionWithContext. rewrite bind_run, emit_run.
  by destruct (post w c d).
Qed.

Lemma eachItem_answered (item : dynamodb.Item) (st : state) :
  has_connectionID item → answered w d item →
  eachItem_body w objMap item st =
  (Done tt, State (table st) (trace st ++ item_events w d item)).
Proof.
  intros [attr Hattr] Hans. unfold eachItem_body, answered in *.
  rewrite Hattr, Hdata; simpl. rewrite bind_run; simpl.
  rewrite bind_run; simpl. rewrite bind_run, post_run.
  rewrite <- (receiver_attr _ _ Hattr).
  unfold item_events, reaction.
  destruct (post w (receiver item) d) as [|e|]; simpl; [done| |done].
  destruct (negb _ && _); unfold go_deleteConnection; rewrite emit_run; simpl;
    by rewrite <- app_assoc.
Qed.

Lemma eachItem_unanswered (item : dynamodb.Item) (st : state) :
  has_connectionID item →
  post w (receiver item) d = apigwManagement.NoResponse →
  eachItem_body w objMap item st =
  (Blocked, State (table st) (trace st ++ [PostToConnection (receiver item) d])).
Proof.
  intros [attr Hattr] Hno. unfold eachItem_body.
  rewrite Hattr, Hdata; simpl. rewrite bind_run; simpl.
  rewrite bind_run; simpl. rewrite bind_run, post_run.
  rewrite <- (receiver_attr _ _ Hattr). by rewrite Hno.
Qed.

Lemma eachItem_no_attribute (item : dynamodb.Item) (st : state) :
  item !! ddbAttributeConnectionID = None →
  eachItem_body w objMap item st = (Panic nilDereference, st).
Proof. intros Hnone. unfold eachItem_body. by rewrite Hnone. Qed.

Lemma range_answered (page : list dynamodb.Item) (st : state) :
  Forall has_connectionID page → Forall (answered w d) page →
  range page (eachItem_body w objMap) st =
  (Done tt, State (table st) (trace st ++ page_events w d page)).
Proof.
  revert st. induction page as [|item page IH]; intros st Hattr Hans; simpl.
  - by rewrite state_eta.
  - inversion_clear Hattr. inversion_clear Hans.
    rewrite bind_run, eachItem_answered by done.
    rewrite IH by done. simpl. by rewrite <- app_assoc.
Qed.

Lemma range_unanswered (pre suf : list dynamodb.Item) (item : dynamodb.Item)
    (st : state) :
  Forall has_connectionID pre → Forall (answered w d) pre →
  has_connectionID item →
  post w (receiver item) d = apigwManagement.NoResponse →
  range (pre ++ item :: suf) (eachItem_body w objMap) st =
  (Blocked,
   State (table st)
     (trace st ++ page_events w d pre ++ [PostToConnection (receiver item) d])).
Proof.
  revert st. induction pre as [|x pre IH]; intros st Hattr Hans Hitem Hno; simpl.
  - by rewrite bind_run, eachItem_unanswered.
  - inversion_clear Hattr. inversion_clear Hans.
    rewrite bind_run, eachItem_answered by done.
    rewrite IH by done. simpl. by rewrite <- !app_assoc.
Qed.

Lemma range_no_attribute (pre suf : list dynamodb.Item) (item : dynamodb.Item)
    (st : state) :
  Forall has_connectionID pre → Forall (answered w d) pre →
  item !! ddbAttributeConnectionID = None →
  range (pre ++ item :: suf) (eachItem_body w objMap) st =
  (Panic nilDereference, State (table st) (trace st ++ page_events w d pre)).
Proof.
  revert st. induction pre as [|x pre IH]; intros st Hattr Hans Hnone; simpl.
  - by rewrite bind_run, eachItem_no_attribute, state_eta.
  - inversion_clear Hattr. inversion_clear Hans.
    rewrite bind_run, eachItem_answered by done.
    rewrite IH by done. simpl. by rewrite <- !app_assoc.
Qed.

Lemma scanCallback_answered (page : list dynamodb.Item) (lastPage : bool)
    (st : state) :
  Forall has_connectionID page → Forall (answered w d) page →
  scanCallback w objMap {| dynamodb.Items := page |} lastPage st =
  (Done true, State (table st) (trace st ++ page_events w d page)).
Proof.
  intros Hattr Hans. unfold scanCallback. simpl.
  by rewrite bind_run, range_answered.
Qed.

(** A scan whose requests all succeed. *)
Lemma ScanPages_complete (pages : list (list dynamodb.Item)) (n : nat) (st : state) :
  (∀ j, n ≤ j < n + length pages → Scan_err w j = None) →
  Forall has_connectionID (concat pages) →
  Forall (answered w d) (concat pages) →
  ScanPages_from w n pages (scanCallback w objMap) st =
  (Done None, State (table st) (trace st ++ scan_events w d n pages)).
Proof.
  revert n st. induction pages as [|page rest IH]; intros n st Herr Hattr Hans; simpl.
  - by rewrite state_eta.
  - simpl in Hattr, Hans. apply Forall_app in Hattr as [Hattr1 Hattr2].
    apply Forall_app in Hans as [Hans1 Hans2].
    rewrite bind_run, emit_run, Herr by (simpl; lia).
    rewrite bind_run, scanCallback_answered by done.
    rewrite IH; [|intros j Hj; apply Herr; simpl; lia|done|done].
    simpl. by rewrite <- !app_assoc.
Qed.

(** A scan whose request for page [k] fails. *)
Lemma ScanPages_failure (pages : list (list dynamodb.Item)) (n k : nat) (e : string)
    (st : state) :
  k < length pages →
  (∀ j, j < k → Scan_err w (n + j) = None) →
  Scan_err w (n + k) = Some e →
  Forall has_connectionID (concat (take k pages)) →
  Forall (answered w d) (concat (take k pages)) →
  ScanPages_from w n pages (scanCallback w objMap) st =
  (Done (Some e),
   State (table st)
     (trace st ++ scan_events w d n (take k pages) ++ [Scan (n + k)])).
Proof.
  revert n k st.
  induction pages as [|page rest IH]; intros n k st Hk Hbefore Hat Hattr Hans;
    simpl in *; [lia|].
  destruct k as [|k]; simpl in *.
  - rewrite Nat.add_0_r in *. by rewrite bind_run, emit_run, Hat.
  - apply Forall_app in Hattr as [Hattr1 Hattr2].
    apply Forall_app in Hans as [Hans1 Hans2].
    rewrite bind_run, emit_run.
    specialize (Hbefore 0 ltac:(lia)) as H0. rewrite Nat.add_0_r in H0. rewrite H0.
    rewrite bind_run, scanCallback_answered by done.
    rewrite (IH (n + 1) k); [| lia | | | done | done].
    + simpl. replace (n + 1 + k) with (n + Datatypes.S k) by lia.
      by rewrite <- !app_assoc.
    + intros j Hj. replace (n + 1 + j) with (n + Datatypes.S j) by lia.
      apply Hbefore. lia.
    + by replace (n + 1 + k) with (n + Datatypes.S k) by lia.
Qed.

End Fanout.

(** ** What a trace of the fanout contains *)

(** A goroutine is started for a failed post when the connection has a name
    and the error mentions [GoneException]. *)
Definition cleanup (w : World) (d : json.RawMessage) (c : string) : bool :=
  negb (String.eqb c EmptyString) && Gone w d c.

(** The error is logged for any other failed post. *)
Definition logged (w : World) (d : json.RawMessage) (c : string) : option string :=
  if cleanup w d c then None else failure w d c.

Section Projections.

Variable w : World.
Variable d : json.RawMessage.

Lemma reaction_cases (c : string) :
  reaction w d c =
  if cleanup w d c then [Go_deleteConnection c]
  else match logged w d c with
       | Some e => [LogWarn "Failed to post to connection" "Error" e]
       | None => []
       end.
Proof.
  unfold reaction, logged, cleanup, Gone, failure.
  destruct (post w c d) as [|e|]; simpl; rewrite ?andb_false_r; try done.
  by destruct (negb _ && _).
Qed.

Lemma deliveries_item (item : dynamodb.Item) :
  deliveries (item_events w d item) = [(receiver item, d)].
Proof.
  unfold item_events. rewrite reaction_cases. simpl.
  destruct (cleanup _ _ _); [done|]. by destruct (logged _ _ _).
Qed.

Lemma spawned_item (item : dynamodb.Item) :
  spawned (item_events w d item) = filter (λ c, cleanup w d c) [receiver item].
Proof.
  unfold item_events. rewrite reaction_cases. simpl.
  rewrite filter_cons, filter_nil.
  destruct (cleanup _ _ _); simpl; [done|]. by destruct (logged _ _ _).
Qed.

Lemma warnings_item (item : dynamodb.Item) :
  warnings (item_events w d item) = omap (logged w d) [receiver item].
Proof.
  unfold item_events. rewrite reaction_cases. simpl.
  unfold logged at 2. destruct (cleanup _ _ _) eqn:E; simpl; [done|].
  unfold logged. rewrite E. by destruct (failure _ _ _).
Qed.

Lemma scans_item (item : dynamodb.Item) : scans (item_events w d item) = [].
Proof.
  unfold item_events. rewrite reaction_cases. simpl.
  destruct (cleanup _ _ _); [done|]. by destruct (logged _ _ _).
Qed.

Lemma deliveries_app (tr1 tr2 : list event) :
  deliveries (tr1 ++ tr2) = deliveries tr1 ++ deliveries tr2.
Proof. apply omap_app. Qed.

Lemma spawned_app (tr1 tr2 : list event) :
  spawned (tr1 ++ tr2) = spawned tr1 ++ spawned tr2.
Proof. apply omap_app. Qed.

Lemma warnings_app (tr1 tr2 : list event) :
  warnings (tr1 ++ tr2) = warnings tr1 ++ warnings tr2.
Proof. apply omap_app. Qed.

Lemma scans_app (tr1 tr2 : list event) : scans (tr1 ++ tr2) = scans tr1 ++ scans tr2.
Proof. apply omap_app. Qed.

Lemma deliveries_page (page : list dynamodb.Item) :
  deliveries (page_events w d page) = (λ item, (receiver item, d)) <$> page.
Proof.
  unfold page_events. induction page as [|item page IH]; [done|].
  by rewrite bind_cons, deliveries_app, IH, deliveries_item.
Qed.

Lemma spawned_page (page : list dynamodb.Item) :
  spawned (page_events w d page) = filter (λ c, cleanup w d c) (receiver <$> page).
Proof.
  unfold page_events. induction page as [|item page IH]; [done|].
  rewrite bind_cons, spawned_app, IH, spawned_item, fmap_cons.
  symmetry. apply (filter_app _ [_]).
Qed.

Lemma warnings_page (page : list dynamodb.Item) :
  warnings (page_events w d page) = omap (logged w d) (receiver <$> page).
Proof.
  unfold page_events. induction page as [|item page IH]; [done|].
  rewrite bind_cons, warnings_app, IH, warnings_item, fmap_cons.
  symmetry. apply (omap_app _ [_]).
Qed.

Lemma scans_page (page : list dynamodb.Item) : scans (page_events w d page) = [].
Proof.
  unfold page_events. induction page as [|item page IH]; [done|].
  by rewrite bind_cons, scans_app, IH, scans_item.
Qed.

Lemma deliveries_scan (pages : list (list dynamodb.Item)) (n : nat) :
  deliveries (scan_events w d n pages) = (λ item, (receiver item, d)) <$> concat pages.
Proof.
  revert n. induction pages as [|page rest IH]; intros n; [done|]. simpl.
  change (deliveries (Scan n :: ?t)) with (deliveries t).
  by rewrite deliveries_app, IH, deliveries_page, fmap_app.
Qed.

Lemma spawned_scan (pages : list (list dynamodb.Item)) (n : nat) :
  spawned (scan_events w d n pages) =
  filter (λ c, cleanup w d c) (receiver <$> concat pages).
Proof.
  revert n. induction pages as [|page rest IH]; intros n; [done|]. simpl.
  change (spawned (Scan n :: ?t)) with (spawned t).
  by rewrite spawned_app, IH, spawned_page, fmap_app, filter_app.
Qed.

Lemma warnings_scan (pages : list (list dynamodb.Item)) (n : nat) :
  warnings (scan_events w d n pages) = omap (logged w d) (receiver <$> concat pages).
Proof.
  revert n. induction pages as [|page rest IH]; intros n; [done|]. simpl.
  change (warnings (Scan n :: ?t)) with (warnings t).
  by rewrite warnings_app, IH, warnings_page, fmap_app, omap_app.
Qed.

Lemma scans_scan (pages : list (list dynamodb.Item)) (n : nat) :
  scans (scan_events w d n pages) = seq n (length pages).
Proof.
  revert n. induction pages as [|page rest IH]; intros n; [done|]. simpl.
  change (scans (Scan n :: ?t)) with (n :: scans t).
  by rewrite scans_app, IH, scans_page, Nat.add_1_r.
Qed.

End Projections.

(** ** [sendMessage], phase by phase *)

Definition unmarshalFailure (cause : string) : wsResponse * option string :=
  ({| StatusCode := 500; Body := "Failed to unmarshal request: " +:+ cause |}, None).

Definition sendFailure (cause : string) : wsResponse * option string :=
  ({| StatusCode := 500; Body := "Failed to send message: " +:+ cause |}, None).

Definition dataSent : wsResponse * option string :=
  ({| StatusCode := 200; Body := "Data sent." |}, None).

Lemma sendMessage_unmarshal_error (w : World) (request : APIGatewayWebsocketProxyRequest)
    (objMap : json.objMap) (cause : string) (st : state) :
  json.Unmarshal (awsEvents.Body request) = (objMap, Some cause) →
  sendMessage w request st =
  (Done (unmarshalFailure cause),
   State (table st) (trace st ++ [endpoint_line request])).
Proof.
  intros Hbody. unfold sendMessage. rewrite bind_run, emit_run, Hbody.
  by rewrite bool_decide_true.
Qed.

Lemma sendMessage_no_data (w : World) (request : APIGatewayWebsocketProxyRequest)
    (objMap : json.objMap) (st : state) :
  json.Unmarshal (awsEvents.Body request) = (objMap, None) →
  index_data objMap = None →
  sendMessage w request st =
  (Panic nilDereference, State (table st) (trace st ++ [endpoint_line request])).
Proof.
  intros Hbody Hnil. unfold sendMessage. rewrite bind_run, emit_run, Hbody.
  rewrite (bool_decide_true (index_data objMap = None)) by done.
  by rewrite orb_true_r.
Qed.

Lemma sendMessage_scan (w : World) (request : APIGatewayWebsocketProxyRequest)
    (objMap : json.objMap) (d : json.RawMessage) (st : state) :
  json.Unmarshal (awsEvents.Body request) = (objMap, None) →
  index_data objMap = Some d →
  sendMessage w request st =
  match ScanPages_from w 0 (paginate (pageLimit w) (table st)) (scanCallback w objMap)
          (State (table st) (trace st ++ [endpoint_line request])) with
  | (Done (Some e), st') => (Done (sendFailure e), st')
  | (Done None, st') => (Done dataSent, st')
  | (Panic reason, st') => (Panic reason, st')
  | (Blocked, st') => (Blocked, st')
  end.
Proof.
  intros Hbody Hd. unfold sendMessage. rewrite bind_run, emit_run, Hbody.
  rewrite bool_decide_false by (intros H; by apply H).
  rewrite bool_decide_false by (rewrite Hd; done).
  simpl. rewrite bind_run. unfold ScanPagesWithContext. simpl.
  destruct (ScanPages_from _ _ _ _ _) as [[[e|]| |] st']; done.
Qed.

Lemma sendMessage_complete (w : World) (request : APIGatewayWebsocketProxyRequest)
    (objMap : json.objMap) (d : json.RawMessage) (rows : list dynamodb.Item) :
  json.Unmarshal (awsEvents.Body request) = (objMap, None) →
  index_data objMap = Some d →
  (∀ n, n < length (paginate (pageLimit w) rows) → Scan_err w n = None) →
  Forall has_connectionID rows →
  Forall (answered w d) rows →
  run (sendMessage w request) rows =
  (Done dataSent,
   State rows
     (endpoint_line request :: scan_events w d 0 (paginate (pageLimit w) rows))).
Proof.
  intros Hbody Hd Herr Hattr Hans. unfold run.
  rewrite (sendMessage_scan _ _ _ _ _ Hbody Hd). simpl.
  rewrite (ScanPages_complete w objMap d Hd); simpl;
    [done | intros j Hj; apply Herr; lia | | ]; by rewrite concat_paginate.
Qed.

(** ** Deciding the side conditions on concrete inputs *)

#[global] Instance PostToConnectionOutcome_eq_dec :
  EqDecision apigwManagement.PostToConnectionOutcome.
Proof. solve_decision. Defined.

#[global] Instance has_connectionID_dec (item : dynamodb.Item) :
  Decision (has_connectionID item).
Proof. unfold has_connectionID. apply _. Defined.

#[global] Instance answered_dec (w : World) (d : json.RawMessage) (item : dynamodb.Item) :
  Decision (answered w d item).
Proof. unfold answered. apply _. Defined.

Ltac by_evaluation :=
  match goal with |- ?P => apply (bool_decide_unpack P) end; vm_compute; exact I.

(** ** Sample invocations *)

Module Sample.

Definition quoted (s : string) : string :=
  String dquote (s +:+ String dquote EmptyString).

Definition context : APIGatewayWebsocketProxyRequestContext :=
  {| ConnectionID := "sender";
     DomainName := "abc123.execute-api.us-west-2.amazonaws.com";
     Stage := "v1" |}.

Definition with_body (body : string) : APIGatewayWebsocketProxyRequest :=
  {| RequestContext := context; awsEvents.Body := body |}.

(** The body with the member [data] bound to the JSON string [hello]. *)
Definition hello : APIGatewayWebsocketProxyRequest :=
  with_body ("{" +:+ quoted "data" +:+ ": " +:+ quoted "hello" +:+ "}").

Definition hello_map : json.objMap := {[ "data" := Some (quoted "hello") ]}.

(** A backend and an endpoint without failures. *)
Definition calm : World :=
  {| PutItem_err := None;
     DeleteItem_err := None;
     Scan_err := λ _, None;
     pageLimit := 1;
     post := λ _ _, apigwManagement.Posted |}.

(** The scenario of the specification: [A] is reached, [B] is gone, the
    post to [C] fails for another reason. *)
Definition scenario : World :=
  {| PutItem_err := None;
     DeleteItem_err := None;
     Scan_err := λ _, None;
     pageLimit := 1;
     post := λ c _,
       if String.eqb c "B" then
         apigwManagement.PostFailed "GoneException: status code: 410"
       else if String.eqb c "C" then
         apigwManagement.PostFailed "LimitExceededException: status code: 429"
       else apigwManagement.Posted |}.

Definition registry : list dynamodb.Item := [keyed "A"; keyed "B"; keyed "C"].

(** The request for the second scan page fails. *)
Definition outage : World :=
  {| PutItem_err := Some "ResourceNotFoundException: table not found";
     DeleteItem_err := Some "ResourceNotFoundException: table not found";
     Scan_err := λ n,
       if n =? 1 then Some "ProvisionedThroughputExceededException: slow down"
       else None;
     pageLimit := 1;
     post := λ _ _, apigwManagement.Posted |}.

(** A row whose [connectionID] attribute has no string member. *)
Definition unnamed : dynamodb.Item :=
  {[ ddbAttributeConnectionID := {| dynamodb.S := None |} ]}.

(** Every post is answered with [GoneException]. *)
Definition all_gone : World :=
  {| PutItem_err := None;
     DeleteItem_err := None;
     Scan_err := λ _, None;
     pageLimit := 1;
     post := λ _ _, apigwManagement.PostFailed "GoneException: status code: 410" |}.

(** The post to [A] never comes back. *)
Definition stalled : World :=
  {| PutItem_err := None;
     DeleteItem_err := None;
     Scan_err := λ _, None;
     pageLimit := 1;
     post := λ c _,
       if String.eqb c "A" then apigwManagement.NoResponse
       else apigwManagement.Posted |}.

Lemma hello_decodes : json.Unmarshal (awsEvents.Body hello) = (hello_map, None).
Proof. vm_compute. reflexivity. Qed.

Lemma hello_data : index_data hello_map = Some (quoted "hello").
Proof. reflexivity. Qed.

End Sample.

(** * The properties of the specification *)

(** ** Malformed bodies *)

(** C1: at the body [{}], which is valid JSON without a [data] member,
    [sendMessage] does not answer with status 500: [unmarshalErr] is nil
    and calling its [Error] method panics.  Nothing but the endpoint log
    line has happened by then: no scan page is requested and no delivery
    made.  The same holds for the bodies [null] and [{"data": null}]. *)
Theorem sendMessage_body_without_data_panics (w : World)
    (ctx : APIGatewayWebsocketProxyRequestContext) (rows : list dynamodb.Item)
    (body : string) :
  body ∈ ["{}"; "null"; "{" +:+ Sample.quoted "data" +:+ ": null}"] →
  run (sendMessage w {| RequestContext := ctx; awsEvents.Body := body |}) rows =
  (Panic nilDereference,
   State rows [endpoint_line {| RequestContext := ctx; awsEvents.Body := body |}]).
Proof.
  intros Hbody. unfold run.
  assert (∃ objMap, json.Unmarshal body = (objMap, None) ∧ index_data objMap = None)
    as (objMap & Hdec & Hnil).
  { repeat (apply elem_of_cons in Hbody as [->|Hbody]);
      [| | |by apply elem_of_nil in Hbody];
      eexists; split; vm_compute; reflexivity. }
  by rewrite (sendMessage_no_data w _ objMap).
Qed.

Lemma sendMessage_body_without_data_panics_witness :
  run (sendMessage Sample.calm (Sample.with_body "{}")) Sample.registry =
  (Panic nilDereference,
   State Sample.registry [endpoint_line (Sample.with_body "{}")]).
Proof.
  apply (sendMessage_body_without_data_panics Sample.calm Sample.context
           Sample.registry "{}").
  apply list_elem_of_here.
Defined.

Lemma paginate_from_head (limit room : nat) (cur rows : list dynamodb.Item) :
  ∃ page rest, paginate_from limit room cur rows = (reverse cur ++ page) :: rest.
Proof.
  revert room cur. induction rows as [|row rows IH]; intros room cur; simpl.
  - exists [], []. by rewrite app_nil_r.
  - destruct room as [|room].
    + exists [], (paginate_from limit limit [row] rows). by rewrite app_nil_r.
    + destruct (IH room (row :: cur)) as (page & rest & ->).
      exists (row :: page), rest. by rewrite reverse_cons, <- app_assoc.
Qed.

Lemma paginate_head (limit : nat) (row : dynamodb.Item) (rows : list dynamodb.Item) :
  ∃ page rest, paginate limit (row :: rows) = (row :: page) :: rest.
Proof.
  unfold paginate. rewrite Nat.add_1_r. simpl.
  destruct (paginate_from_head limit limit [row] rows) as (page & rest & ->).
  by exists page, rest.
Qed.

(** C2: [connectWorld] and [disconnectWorld] always return a response,
    but [sendMessage] does not: it panics on the body [{}] (valid JSON, no
    [data] member), and it panics when the scan hands it a row that has no
    [connectionID] attribute, here the first row of the table. *)
Theorem sendMessage_can_panic (w : World) (request : APIGatewayWebsocketProxyRequest)
    (rows : list dynamodb.Item) :
  (∃ response st, run (connectWorld w request) rows = (Done (response, None), st))
  ∧ (∃ response st, run (disconnectWorld w request) rows = (Done (response, None), st))
  ∧ fst (run (sendMessage w {| RequestContext := RequestContext request;
                               awsEvents.Body := "{}" |}) rows)
    = Panic nilDereference
  ∧ (Scan_err w 0 = None →
     fst (run (sendMessage w {| RequestContext := RequestContext request;
                                awsEvents.Body := awsEvents.Body Sample.hello |})
            (∅ :: rows))
     = Panic nilDereference).
Proof.
  split; [|split; [|split]].
  - unfold run, connectWorld, PutItem. rewrite bind_run.
    destruct (PutItem_err w); simpl; eauto.
  - unfold run, disconnectWorld, deleteConnection, DeleteItem. rewrite bind_run.
    destruct (DeleteItem_err w); simpl; eauto.
  - unfold run.
    rewrite (sendMessage_no_data w _ ∅); [done | by vm_compute | done].
  - intros Hscan. unfold run.
    match goal with |- context [sendMessage w ?r] => set (rq := r) end.
    rewrite (sendMessage_scan w rq Sample.hello_map _ _
               (Sample.hello_decodes : json.Unmarshal (awsEvents.Body rq) = _)
               Sample.hello_data).
    simpl. destruct (paginate_head (pageLimit w) ∅ rows) as (page & rest & ->).
    simpl. rewrite bind_run, emit_run, Hscan. rewrite bind_run.
    unfold scanCallback. simpl. rewrite bind_run.
    by rewrite bind_run, eachItem_no_attribute.
Qed.

Lemma sendMessage_can_panic_witness :
  fst (run (sendMessage Sample.calm Sample.hello) (∅ :: Sample.registry))
  = Panic nilDereference.
Proof.
  apply (sendMessage_can_panic Sample.calm Sample.hello Sample.registry).
  reflexivity.
Defined.

(** ** The scan *)

(** C3: when the request for scan page [k] fails with [cause], the pages
    before it having been fanned out, [sendMessage] answers with status 500
    and the body [Failed to send message: ] followed by [cause]; the scan
    requests made are those for pages [0] to [k], and the deliveries are
    those of the rows on the pages before [k]. *)
Theorem sendMessage_scan_failure (w : World) (request : APIGatewayWebsocketProxyRequest)
    (objMap : json.objMap) (d : json.RawMessage) (rows : list dynamodb.Item)
    (k : nat) (cause : string) :
  json.Unmarshal (awsEvents.Body request) = (objMap, None) →
  index_data objMap = Some d →
  k < length (paginate (pageLimit w) rows) →
  (∀ j, j < k → Scan_err w j = None) →
  Scan_err w k = Some cause →
  Forall has_connectionID (concat (take k (paginate (pageLimit w) rows))) →
  Forall (answered w d) (concat (take k (paginate (pageLimit w) rows))) →
  ∃ tr,
    run (sendMessage w request) rows =
      (Done ({| StatusCode := 500; Body := "Failed to send message: " +:+ cause |},
             None),
       State rows tr)
    ∧ scans tr = seq 0 (k + 1)
    ∧ deliveries tr =
        (λ item, (receiver item, d)) <$> concat (take k (paginate (pageLimit w) rows)).
Proof.
  intros Hbody Hd Hk Hbefore Hat Hattr Hans. unfold run.
  rewrite (sendMessage_scan _ _ _ _ _ Hbody Hd). simpl.
  rewrite (ScanPages_failure w objMap d Hd _ 0 k cause) by done. simpl.
  eexists. split; [done|]. split.
  - change (scans (endpoint_line request :: ?t)) with (scans t).
    rewrite scans_app, scans_scan, length_take, Nat.min_l by lia.
    simpl. by rewrite seq_app.
  - change (deliveries (endpoint_line request :: ?t)) with (deliveries t).
    rewrite deliveries_app, deliveries_scan. simpl. by rewrite app_nil_r.
Qed.

Lemma sendMessage_scan_failure_witness :
  ∃ tr,
    run (sendMessage Sample.outage Sample.hello) Sample.registry =
      (Done ({| StatusCode := 500;
                Body := "Failed to send message: "
                        +:+ "ProvisionedThroughputExceededException: slow down" |},
             None),
       State Sample.registry tr)
    ∧ scans tr = [0; 1]
    ∧ deliveries tr = [("A", Sample.quoted "hello"); ("B", Sample.quoted "hello")].
Proof.
  apply (sendMessage_scan_failure Sample.outage Sample.hello Sample.hello_map
           (Sample.quoted "hello") Sample.registry 1
           "ProvisionedThroughputExceededException: slow down").
  - vm_compute. reflexivity.
  - reflexivity.
  - vm_compute. lia.
  - intros j Hj. destruct j; [reflexivity | lia].
  - reflexivity.
  - by_evaluation.
  - by_evaluation.
Defined.

Lemma key_of_keyed (c : string) : key_of (keyed c) = Some c.
Proof. unfold key_of, keyed. by rewrite lookup_singleton_eq. Qed.

Lemma receiver_keyed (c : string) : receiver (keyed c) = c.
Proof. unfold receiver. by rewrite key_of_keyed. Qed.

Lemma sendMessage_trace (w : World) (request : APIGatewayWebsocketProxyRequest)
    (objMap : json.objMap) (d : json.RawMessage) (rows : list dynamodb.Item) :
  json.Unmarshal (awsEvents.Body request) = (objMap, None) →
  index_data objMap = Some d →
  (∀ n, n < length (paginate (pageLimit w) rows) → Scan_err w n = None) →
  Forall has_connectionID rows →
  Forall (answered w d) rows →
  let tr := trace (snd (run (sendMessage w request) rows)) in
  deliveries tr = (λ item, (receiver item, d)) <$> rows
  ∧ spawned tr = filter (λ c, cleanup w d c) (receiver <$> rows)
  ∧ warnings tr = omap (logged w d) (receiver <$> rows)
  ∧ scans tr = seq 0 (length (paginate (pageLimit w) rows)).
Proof.
  intros Hbody Hd Herr Hattr Hans.
  rewrite (sendMessage_complete _ _ _ _ _ Hbody Hd Herr Hattr Hans). simpl.
  change (deliveries (endpoint_line request :: ?t)) with (deliveries t).
  change (spawned (endpoint_line request :: ?t)) with (spawned t).
  change (warnings (endpoint_line request :: ?t)) with (warnings t).
  change (scans (endpoint_line request :: ?t)) with (scans t).
  by rewrite deliveries_scan, spawned_scan, warnings_scan, scans_scan,
    concat_paginate.
Qed.

(** C4: when every scan request succeeds (each scanned row having its
    [connectionID] attribute and each post coming back), [sendMessage]
    answers with status 200 and [Data sent.], whatever the posts returned.
    In the scenario of a registry [A], [B], [C] where the post to [A]
    succeeds, the post to [B] fails with [GoneException] and the post to
    [C] fails otherwise, the one goroutine started deletes [B], and once it
    has run against a working backend the registry holds [A] and [C]. *)
Theorem sendMessage_scan_complete (w : World) (request : APIGatewayWebsocketProxyRequest)
    (objMap : json.objMap) (d : json.RawMessage) (rows : list dynamodb.Item) :
  json.Unmarshal (awsEvents.Body request) = (objMap, None) →
  index_data objMap = Some d →
  (∀ n, n < length (paginate (pageLimit w) rows) → Scan_err w n = None) →
  Forall has_connectionID rows →
  Forall (answered w d) rows →
  fst (run (sendMessage w request) rows)
    = Done ({| StatusCode := 200; Body := "Data sent." |}, None)
  ∧ (rows = [keyed "A"; keyed "B"; keyed "C"] →
     post w "A" d = apigwManagement.Posted →
     Gone w d "B" = true →
     Transient w d "C" = true →
     spawned (trace (snd (run (sendMessage w request) rows))) = ["B"]
     ∧ ∀ w', DeleteItem_err w' = None →
         settle [w'] (spawned (trace (snd (run (sendMessage w request) rows)))) rows
         = [keyed "A"; keyed "C"]).
Proof.
  intros Hbody Hd Herr Hattr Hans. split.
  - by rewrite (sendMessage_complete _ _ _ _ _ Hbody Hd Herr Hattr Hans).
  - intros -> HA HB HC.
    destruct (sendMessage_trace _ _ _ _ _ Hbody Hd Herr Hattr Hans) as (_ & -> & _).
    assert (filter (λ c, cleanup w d c) (receiver <$> [keyed "A"; keyed "B"; keyed "C"])
            = ["B"]) as ->.
    { assert (cleanup w d "A" = false) as CA
        by (unfold cleanup, Gone; by rewrite HA).
      assert (cleanup w d "B" = true) as CB by (unfold cleanup; by rewrite HB).
      assert (cleanup w d "C" = false) as CC.
      { unfold cleanup, Gone. unfold Transient in HC.
        destruct (post w "C" d); try done. by destruct (Contains _ _). }
      rewrite !fmap_cons, fmap_nil, !receiver_keyed.
      by rewrite !filter_cons, filter_nil, CA, CB, CC. }
    split; [done|]. intros w' Hw'. simpl.
    unfold deleteConnection, DeleteItem. rewrite Hw'. simpl.
    by vm_compute.
Qed.

Lemma sendMessage_scan_complete_witness :
  fst (run (sendMessage Sample.scenario Sample.hello) Sample.registry)
    = Done ({| StatusCode := 200; Body := "Data sent." |}, None)
  ∧ spawned (trace (snd (run (sendMessage Sample.scenario Sample.hello)
                           Sample.registry))) = ["B"]
  ∧ settle [Sample.calm]
      (spawned (trace (snd (run (sendMessage Sample.scenario Sample.hello)
                              Sample.registry)))) Sample.registry
    = [keyed "A"; keyed "C"].
Proof.
  destruct (sendMessage_scan_complete Sample.scenario Sample.hello Sample.hello_map
              (Sample.quoted "hello") Sample.registry) as [Hresp Hscen].
  - vm_compute. reflexivity.
  - reflexivity.
  - intros n _. reflexivity.
  - by_evaluation.
  - by_evaluation.
  - split; [exact Hresp|].
    destruct Hscen as [Hgo Hsettle]; [reflexivity..|].
    split; [exact Hgo | apply Hsettle; reflexivity].
Defined.

(** ** The fanout *)







(** C10: a scanned row whose [connectionID] attribute has no string member
    is posted to under the empty connection name; no goroutine is ever
    started for the empty name, and when that post fails, with
    [GoneException] or anything else, its error is logged as a warning. *)
Theorem sendMessage_unnamed_connection (w : World)
    (request : APIGatewayWebsocketProxyRequest)
    (objMap : json.objMap) (d : json.RawMessage) (rows : list dynamodb.Item)
    (item : dynamodb.Item) (attr : dynamodb.AttributeValue) :
  json.Unmarshal (awsEvents.Body request) = (objMap, None) →
  index_data objMap = Some d →
  (∀ n, n < length (paginate (pageLimit w) rows) → Scan_err w n = None) →
  Forall has_connectionID rows →
  Forall (answered w d) rows →
  item ∈ rows →
  item !! ddbAttributeConnectionID = Some attr →
  dynamodb.S attr = None →
  (EmptyString, d) ∈ deliveries (trace (snd (run (sendMessage w request) rows)))
  ∧ (EmptyString ∉ spawned (trace (snd (run (sendMessage w request) rows))))
  ∧ (∀ e, post w EmptyString d = apigwManagement.PostFailed e →
       e ∈ warnings (trace (snd (run (sendMessage w request) rows)))).
Proof.
  intros Hbody Hd Herr Hattr Hans Hin Hitem HS.
  destruct (sendMessage_trace _ _ _ _ _ Hbody Hd Herr Hattr Hans)
    as (-> & -> & -> & _).
  assert (receiver item = EmptyString) as Hrecv
    by (by rewrite (receiver_attr _ _ Hitem), HS).
  split; [|split].
  - apply list_elem_of_fmap. exists item. by rewrite Hrecv.
  - intros [Hc _]%list_elem_of_filter. by unfold cleanup in Hc.
  - intros e He. apply list_elem_of_omap. exists EmptyString. split.
    + rewrite <- Hrecv. by apply list_elem_of_fmap_2.
    + unfold logged, cleanup, failure. by rewrite He.
Qed.

Lemma sendMessage_unnamed_connection_witness :
  (EmptyString, Sample.quoted "hello")
    ∈ deliveries (trace (snd (run (sendMessage Sample.all_gone Sample.hello)
                                [keyed "A"; Sample.unnamed])))
  ∧ (EmptyString
     ∉ spawned (trace (snd (run (sendMessage Sample.all_gone Sample.hello)
                              [keyed "A"; Sample.unnamed]))))
  ∧ "GoneException: status code: 410"
    ∈ warnings (trace (snd (run (sendMessage Sample.all_gone Sample.hello)
                              [keyed "A"; Sample.unnamed]))).
Proof.
  destruct (sendMessage_unnamed_connection Sample.all_gone Sample.hello
              Sample.hello_map (Sample.quoted "hello") [keyed "A"; Sample.unnamed]
              Sample.unnamed {| dynamodb.S := None |}) as (Hpost & Hgo & Hwarn).
  - vm_compute. reflexivity.
  - reflexivity.
  - intros n _. reflexivity.
  - by_evaluation.
  - by_evaluation.
  - apply list_elem_of_further, list_elem_of_here.
  - reflexivity.
  - reflexivity.
  - split; [exact Hpost|]. split; [exact Hgo|]. apply Hwarn. reflexivity.
Defined.

(** ** Cleanup *)

Definition with_DeleteItem_err (err : option string) (w : World) : World :=
  {| PutItem_err := PutItem_err w;
     DeleteItem_err := err;
     Scan_err := Scan_err w;
     pageLimit := pageLimit w;
     post := post w |}.

Lemma range_ext {A} (l : list A) (f g : A → M unit) (st : state) :
  (∀ x st', f x st' = g x st') → range l f st = range l g st.
Proof.
  intros Hfg. revert st. induction l as [|x l IH]; intros st; [done|]. simpl.
  rewrite !bind_run, Hfg. by destruct (g x st) as [[[]| |] st'].
Qed.

Lemma ScanPages_from_ext (w w' : World) (n : nat) (pages : list (list dynamodb.Item))
    (fn fn' : dynamodb.ScanOutput → bool → M bool) (st : state) :
  (∀ j, Scan_err w j = Scan_err w' j) →
  (∀ output lastPage st', fn output lastPage st' = fn' output lastPage st') →
  ScanPages_from w n pages fn st = ScanPages_from w' n pages fn' st.
Proof.
  intros Herr Hfn. revert n st.
  induction pages as [|page rest IH]; intros n st; [done|]. simpl.
  rewrite !bind_run, !emit_run, Herr. destruct (Scan_err w' n); [done|].
  rewrite !bind_run, Hfn. by destruct (fn' _ _ _) as [[[]| |] st'].
Qed.

(** [sendMessage] never looks at what [DeleteItem] would answer. *)
Lemma sendMessage_ignores_DeleteItem (err : option string) (w : World)
    (request : APIGatewayWebsocketProxyRequest) (st : state) :
  sendMessage (with_DeleteItem_err err w) request st = sendMessage w request st.
Proof.
  unfold sendMessage. rewrite !bind_run, !emit_run.
  destruct (json.Unmarshal _) as [objMap unmarshalErr].
  destruct (_ || _); [done|]. rewrite !bind_run.
  unfold ScanPagesWithContext. simpl.
  rewrite (ScanPages_from_ext (with_DeleteItem_err err w) w _ _ _
             (scanCallback w objMap)); [done..|].
  intros output lastPage st'. unfold scanCallback. rewrite !bind_run.
  by rewrite (range_ext _ _ (eachItem_body w objMap)).
Qed.

Lemma deleteConnection_silent (w : World) (c : string) (st : state) :
  trace (snd (deleteConnection w c st)) = trace st.
Proof. unfold deleteConnection, DeleteItem. by destruct (DeleteItem_err w). Qed.

(** The claim C5 in the specification's words: a delete is dispatched for
    a scanned connection exactly when its delivery is [Gone]. *)
Definition cleanup_iff_Gone (w : World) (request : APIGatewayWebsocketProxyRequest)
    (d : json.RawMessage) (rows : list dynamodb.Item) : Prop :=
  ∀ c, c ∈ receiver <$> rows →
    (c ∈ spawned (trace (snd (run (sendMessage w request) rows)))
     ↔ Gone w d c = true).

(** C5, counterexample: the post for a row whose [connectionID] has no
    string member goes to the empty connection name; it fails with
    [GoneException] and no delete is dispatched. *)
Lemma cleanup_iff_Gone_fails :
  ¬ cleanup_iff_Gone Sample.all_gone Sample.hello (Sample.quoted "hello")
      [Sample.unnamed].
Proof.
  intros Hclaim.
  destruct (Hclaim EmptyString) as [_ Hgo].
  - apply list_elem_of_here.
  - specialize (Hgo eq_refl). vm_compute in Hgo. by apply elem_of_nil in Hgo.
Qed.

(** C5, amended: during a broadcast whose scan runs to its end, a delete is
    dispatched for a scanned connection exactly when the connection name is
    not empty and its post fails with an error that mentions
    [GoneException]; the error of any other failed post is logged as a
    warning and no delete is dispatched for it.  The delete is a goroutine:
    [sendMessage] leaves the table as it found it, and its result, response
    and log included, is the same whatever [DeleteItem] would answer; the
    goroutine itself logs nothing. *)
Theorem cleanup_dispatch (w : World) (request : APIGatewayWebsocketProxyRequest)
    (objMap : json.objMap) (d : json.RawMessage) (rows : list dynamodb.Item) :
  json.Unmarshal (awsEvents.Body request) = (objMap, None) →
  index_data objMap = Some d →
  (∀ n, n < length (paginate (pageLimit w) rows) → Scan_err w n = None) →
  Forall has_connectionID rows →
  Forall (answered w d) rows →
  (∀ c, c ∈ spawned (trace (snd (run (sendMessage w request) rows)))
        ↔ c ∈ receiver <$> rows ∧ c ≠ EmptyString ∧ Gone w d c = true)
  ∧ (∀ e, e ∈ warnings (trace (snd (run (sendMessage w request) rows)))
          ↔ ∃ c, c ∈ receiver <$> rows
                 ∧ post w c d = apigwManagement.PostFailed e
                 ∧ (c = EmptyString
                    ∨ Contains e apigwManagement.ErrCodeGoneException = false))
  ∧ table (snd (run (sendMessage w request) rows)) = rows
  ∧ (∀ err, run (sendMessage (with_DeleteItem_err err w) request) rows
            = run (sendMessage w request) rows)
  ∧ (∀ w' c st, trace (snd (deleteConnection w' c st)) = trace st).
Proof.
  intros Hbody Hd Herr Hattr Hans.
  destruct (sendMessage_trace _ _ _ _ _ Hbody Hd Herr Hattr Hans)
    as (_ & -> & -> & _).
  split; [|split; [|split; [|split]]].
  - intros c. rewrite list_elem_of_filter. unfold cleanup.
    destruct (String.eqb_spec c EmptyString) as [->|Hne]; simpl.
    + split; [by intros [[] _] | by intros (_ & Hne & _)].
    + destruct (Gone w d c); simpl.
      * split; [by intros [_ Hin] | by intros (Hin & _ & _)].
      * split; [by intros [[] _] | by intros (_ & _ & Hgone)].
  - intros e. rewrite list_elem_of_omap. unfold logged, cleanup, Gone, failure.
    split.
    + intros (c & Hin & Hlog). exists c. split; [done|].
      destruct (post w c d) as [|e'|]; simpl in Hlog;
        rewrite ?andb_false_r in Hlog; try done.
      destruct (String.eqb_spec c EmptyString) as [->|Hne]; simpl in Hlog.
      * injection Hlog as ->. by split; [|left].
      * destruct (Contains e' _) eqn:E; [done|].
        injection Hlog as ->. by split; [|right].
    + intros (c & Hin & Hpost & Hwhy). exists c. split; [done|]. rewrite Hpost.
      destruct Hwhy as [-> | ->]; simpl; [done|]. by rewrite andb_false_r.
  - by rewrite (sendMessage_complete _ _ _ _ _ Hbody Hd Herr Hattr Hans).
  - intros err. unfold run. apply sendMessage_ignores_DeleteItem.
  - apply deleteConnection_silent.
Qed.

Lemma cleanup_dispatch_witness :
  (∀ c, c ∈ spawned (trace (snd (run (sendMessage Sample.scenario Sample.hello)
                                   Sample.registry)))
        ↔ c ∈ receiver <$> Sample.registry ∧ c ≠ EmptyString
          ∧ Gone Sample.scenario (Sample.quoted "hello") c = true)
  ∧ table (snd (run (sendMessage Sample.scenario Sample.hello) Sample.registry))
    = Sample.registry.
Proof.
  destruct (cleanup_dispatch Sample.scenario Sample.hello Sample.hello_map
              (Sample.quoted "hello") Sample.registry)
    as (Hgo & _ & Htable & _).
  - vm_compute. reflexivity.
  - reflexivity.
  - intros n _. reflexivity.
  - by_evaluation.
  - by_evaluation.
  - split; [exact Hgo | exact Htable].
Defined.

(** ** One delivery after the other *)

(** A scan in which a post does not come back: the rows before it have
    been handled, the rows after it are not reached. *)
Lemma ScanPages_unanswered (w : World) (objMap : json.objMap) (d : json.RawMessage)
    (pages : list (list dynamodb.Item)) (pre suf : list dynamodb.Item)
    (item : dynamodb.Item) (n : nat) (st : state) :
  index_data objMap = Some d →
  concat pages = pre ++ item :: suf →
  (∀ j, n ≤ j < n + length pages → Scan_err w j = None) →
  Forall has_connectionID pre →
  Forall (answered w d) pre →
  has_connectionID item →
  post w (receiver item) d = apigwManagement.NoResponse →
  ∃ tr,
    ScanPages_from w n pages (scanCallback w objMap) st
      = (Blocked, State (table st) (trace st ++ tr))
    ∧ deliveries tr = (λ x, (receiver x, d)) <$> (pre ++ [item]).
Proof.
  intros Hd. revert n st pre.
  induction pages as [|page rest IH]; intros n st pre Hcat Herr Hattr Hans Hitem Hno;
    simpl in Hcat.
  { by destruct pre. }
  simpl. rewrite bind_run, emit_run, Herr by (simpl; lia). rewrite bind_run.
  assert (∀ j, n + 1 ≤ j < n + 1 + length rest → Scan_err w j = None) as Herr'
    by (intros j Hj; apply Herr; simpl; lia).
  apply app_eq_inv in Hcat as [(k & -> & Hsuf)|(k & -> & Hrest)].
  - destruct k as [|x k]; simpl in Hsuf.
    + rewrite app_nil_r. rewrite (scanCallback_answered w objMap d Hd) by done.
      cbn [table trace].
      destruct (IH (n + 1)
                  (State (table st) ((trace st ++ [Scan n]) ++ page_events w d pre))
                  [] (eq_sym Hsuf) Herr')
        as (tr & -> & Hdel); [done..|].
      exists (Scan n :: page_events w d pre ++ tr). simpl. split.
      * by rewrite <- !app_assoc.
      * change (deliveries (Scan n :: ?t)) with (deliveries t).
        by rewrite deliveries_app, deliveries_page, Hdel, app_nil_l, fmap_app.
    + injection Hsuf as <- _. unfold scanCallback. simpl.
      rewrite bind_run, (range_unanswered w objMap d Hd) by done. simpl.
      exists (Scan n :: page_events w d pre ++ [PostToConnection (receiver item) d]).
      split.
      * by rewrite <- !app_assoc.
      * change (deliveries (Scan n :: ?t)) with (deliveries t).
        by rewrite deliveries_app, deliveries_page, fmap_app.
  - apply Forall_app in Hattr as [Hattr1 Hattr2].
    apply Forall_app in Hans as [Hans1 Hans2].
    rewrite (scanCallback_answered w objMap d Hd) by done.
    cbn [table trace].
    destruct (IH (n + 1)
                (State (table st) ((trace st ++ [Scan n]) ++ page_events w d page))
                k Hrest Herr')
      as (tr & -> & Hdel); [done..|].
    exists (Scan n :: page_events w d page ++ tr). simpl. split.
    + by rewrite <- !app_assoc.
    + change (deliveries (Scan n :: ?t)) with (deliveries t).
      by rewrite deliveries_app, deliveries_page, Hdel, <- app_assoc, !fmap_app.
Qed.

(** The claim C7 in the specification's words: a delivery that hangs delays
    its own entry only; the other scanned connections are posted to and the
    response is produced. *)
Definition hung_delivery_is_isolated (w : World)
    (request : APIGatewayWebsocketProxyRequest)
    (d : json.RawMessage) (rows : list dynamodb.Item) : Prop :=
  (∀ item, item ∈ rows →
     (receiver item, d) ∈ deliveries (trace (snd (run (sendMessage w request) rows))))
  ∧ ∃ response st, run (sendMessage w request) rows = (Done response, st).

(** C7, counterexample: with [A] and [B] on one page and a post to [A]
    that never comes back, [B] is not posted to and there is no response. *)
Lemma hung_delivery_is_isolated_fails :
  ¬ hung_delivery_is_isolated Sample.stalled Sample.hello (Sample.quoted "hello")
      [keyed "A"; keyed "B"].
Proof.
  intros [_ (response & st & Hrun)]. vm_compute in Hrun. discriminate Hrun.
Qed.

(** C7, amended: the deliveries of a broadcast are made one after the other,
    in scan order, each post being awaited before the next row is looked
    at.  When the post for a row never comes back, the rows before it have
    been posted to, the rows after it (on the same page or on later pages)
    are never posted to, and [sendMessage] produces no response. *)
Theorem fanout_is_sequential (w : World) (request : APIGatewayWebsocketProxyRequest)
    (objMap : json.objMap) (d : json.RawMessage) (pre suf : list dynamodb.Item)
    (item : dynamodb.Item) :
  json.Unmarshal (awsEvents.Body request) = (objMap, None) →
  index_data objMap = Some d →
  (∀ n, n < length (paginate (pageLimit w) (pre ++ item :: suf)) →
        Scan_err w n = None) →
  Forall has_connectionID pre →
  Forall (answered w d) pre →
  has_connectionID item →
  post w (receiver item) d = apigwManagement.NoResponse →
  fst (run (sendMessage w request) (pre ++ item :: suf)) = Blocked
  ∧ deliveries (trace (snd (run (sendMessage w request) (pre ++ item :: suf))))
    = (λ x, (receiver x, d)) <$> (pre ++ [item]).
Proof.
  intros Hbody Hd Herr Hattr Hans Hitem Hno. unfold run.
  rewrite (sendMessage_scan _ _ _ _ _ Hbody Hd). simpl.
  destruct (ScanPages_unanswered w objMap d
              (paginate (pageLimit w) (pre ++ item :: suf)) pre suf item 0
              (State (pre ++ item :: suf) [endpoint_line request]) Hd)
    as (tr & -> & Hdel); try done.
  - apply concat_paginate.
  - intros j Hj. apply Herr. lia.
Qed.

Lemma fanout_is_sequential_witness :
  fst (run (sendMessage Sample.stalled Sample.hello)
         ([keyed "C"] ++ keyed "A" :: [keyed "B"])) = Blocked
  ∧ deliveries (trace (snd (run (sendMessage Sample.stalled Sample.hello)
                              ([keyed "C"] ++ keyed "A" :: [keyed "B"]))))
    = [("C", Sample.quoted "hello"); ("A", Sample.quoted "hello")].
Proof.
  apply (fanout_is_sequential Sample.stalled Sample.hello Sample.hello_map
           (Sample.quoted "hello") [keyed "C"] [keyed "B"] (keyed "A")).
  - vm_compute. reflexivity.
  - reflexivity.
  - intros n _. reflexivity.
  - by_evaluation.
  - by_evaluation.
  - by_evaluation.
  - reflexivity.
Defined.

(** ** The registry *)

(** How many rows of the table carry the connection identifier [c]. *)
Definition registered (c : string) (rows : list dynamodb.Item) : nat :=
  length (filter (λ row, key_of row = Some c) rows).

(** The table without the rows of [c], as [DeleteItem] leaves it. *)
Definition without (c : string) (rows : list dynamodb.Item) : list dynamodb.Item :=
  filter (λ row, key_of row ≠ Some c) rows.

(** What changes the table: a connect event, a disconnect event, and the
    goroutine a broadcast starts for a connection that is gone. *)
Inductive operation :=
| Connect (w : World) (request : APIGatewayWebsocketProxyRequest)
| Disconnect (w : World) (request : APIGatewayWebsocketProxyRequest)
| Cleanup (w : World) (connectionID : string).

Definition perform (rows : list dynamodb.Item) (op : operation) : list dynamodb.Item :=
  match op with
  | Connect w request => table (snd (run (connectWorld w request) rows))
  | Disconnect w request => table (snd (run (disconnectWorld w request) rows))
  | Cleanup w c => table (snd (run (deleteConnection w c) rows))
  end.

Lemma without_absent (c : string) (rows : list dynamodb.Item) :
  Some c ∉ key_of <$> rows → without c rows = rows.
Proof.
  unfold without. induction rows as [|row rows IH]; intros Hnot; [done|].
  rewrite fmap_cons, not_elem_of_cons in Hnot. destruct Hnot as [Hne Hnot].
  rewrite filter_cons. rewrite decide_True by congruence. by rewrite IH.
Qed.

Lemma without_removes (c : string) (rows : list dynamodb.Item) :
  Some c ∉ key_of <$> without c rows.
Proof.
  intros (row & Hkey & Hin)%list_elem_of_fmap.
  apply list_elem_of_filter in Hin as [Hne _]. congruence.
Qed.

Lemma registered_app (c : string) (rows1 rows2 : list dynamodb.Item) :
  registered c (rows1 ++ rows2) = registered c rows1 + registered c rows2.
Proof. unfold registered. by rewrite filter_app, length_app. Qed.

Lemma registered_without (c c' : string) (rows : list dynamodb.Item) :
  registered c (without c' rows) = if decide (c = c') then 0 else registered c rows.
Proof.
  unfold registered, without. induction rows as [|row rows IH]; simpl.
  - by case_decide.
  - rewrite !filter_cons.
    destruct (decide (key_of row ≠ Some c')) as [Hne|Heq].
    + rewrite filter_cons.
      destruct (decide (key_of row = Some c)) as [Hc|Hc]; simpl; rewrite IH;
        case_decide; congruence.
    + rewrite IH. case_decide; [done|].
      rewrite decide_False; [done|]. intros Hc. apply Heq. congruence.
Qed.

Lemma registered_keyed (c c' : string) :
  registered c [keyed c'] = if decide (c = c') then 1 else 0.
Proof.
  unfold registered. rewrite filter_cons, filter_nil, key_of_keyed.
  repeat case_decide; simpl; congruence.
Qed.

Lemma connectWorld_run (w : World) (request : APIGatewayWebsocketProxyRequest)
    (rows : list dynamodb.Item) :
  run (connectWorld w request) rows =
  match PutItem_err w with
  | Some cause =>
      (Done ({| StatusCode := 500; Body := "Failed to connect: " +:+ cause |}, None),
       State rows [])
  | None =>
      (Done ({| StatusCode := 200; Body := "Connected." |}, None),
       State (without (ConnectionID (RequestContext request)) rows
                ++ [keyed (ConnectionID (RequestContext request))]) [])
  end.
Proof.
  unfold run, connectWorld, PutItem, without. rewrite bind_run.
  destruct (PutItem_err w); simpl; [done|]. by rewrite key_of_keyed.
Qed.

Lemma disconnectWorld_run (w : World) (request : APIGatewayWebsocketProxyRequest)
    (rows : list dynamodb.Item) :
  run (disconnectWorld w request) rows =
  match DeleteItem_err w with
  | Some cause =>
      (Done ({| StatusCode := 500; Body := "Failed to disconnect: " +:+ cause |}, None),
       State rows [])
  | None =>
      (Done ({| StatusCode := 200; Body := "Disconnected." |}, None),
       State (without (ConnectionID (RequestContext request)) rows) [])
  end.
Proof.
  unfold run, disconnectWorld, deleteConnection, DeleteItem, without.
  rewrite bind_run.
  destruct (DeleteItem_err w); simpl; [done|]. by rewrite key_of_keyed.
Qed.

Lemma deleteConnection_run (w : World) (c : string) (rows : list dynamodb.Item) :
  table (snd (run (deleteConnection w c) rows)) =
  match DeleteItem_err w with
  | Some _ => rows
  | None => without c rows
  end.
Proof.
  unfold run, deleteConnection, DeleteItem, without.
  destruct (DeleteItem_err w); simpl; [done|]. by rewrite key_of_keyed.
Qed.

Definition unique (rows : list dynamodb.Item) : Prop :=
  ∀ c, registered c rows ≤ 1.

Lemma perform_unique (rows : list dynamodb.Item) (op : operation) :
  unique rows → unique (perform rows op).
Proof.
  intros Huniq c. specialize (Huniq c). destruct op as [w request|w request|w c'];
    simpl.
  - rewrite connectWorld_run. destruct (PutItem_err w); simpl; [done|].
    rewrite registered_app, registered_without, registered_keyed.
    case_decide; lia.
  - rewrite disconnectWorld_run. destruct (DeleteItem_err w); simpl; [done|].
    rewrite registered_without. case_decide; lia.
  - rewrite deleteConnection_run. destruct (DeleteItem_err w); [done|].
    rewrite registered_without. case_decide; lia.
Qed.

Lemma foldl_perform_unique (ops : list operation) (rows : list dynamodb.Item) :
  unique rows → unique (foldl perform rows ops).
Proof.
  revert rows. induction ops as [|op ops IH]; intros rows Huniq; [done|].
  simpl. by apply IH, perform_unique.
Qed.

(** C8: when the backend answers [DeleteItem] without error,
    [disconnectWorld] responds with status 200 and [Disconnected.] and
    leaves the table without the rows of the connection; a table that has
    no such row is left as it is, so disconnecting an unknown identifier, or
    the same identifier again, succeeds all the same.  When the backend
    answers with an error, the response is status 500 and
    [Failed to disconnect: ] followed by the error, and the table is
    unchanged. *)
Theorem disconnectWorld_idempotent (w : World)
    (request : APIGatewayWebsocketProxyRequest) (rows : list dynamodb.Item) :
  (DeleteItem_err w = None →
     run (disconnectWorld w request) rows
       = (Done ({| StatusCode := 200; Body := "Disconnected." |}, None),
          State (without (ConnectionID (RequestContext request)) rows) [])
     ∧ (Some (ConnectionID (RequestContext request)) ∉ key_of <$> rows →
        without (ConnectionID (RequestContext request)) rows = rows)
     ∧ run (disconnectWorld w request)
         (without (ConnectionID (RequestContext request)) rows)
       = (Done ({| StatusCode := 200; Body := "Disconnected." |}, None),
          State (without (ConnectionID (RequestContext request)) rows) []))
  ∧ (∀ cause, DeleteItem_err w = Some cause →
       run (disconnectWorld w request) rows
       = (Done ({| StatusCode := 500;
                   Body := "Failed to disconnect: " +:+ cause |}, None),
          State rows [])).
Proof.
  split.
  - intros Hok. rewrite !disconnectWorld_run, Hok. split; [done|]. split.
    + apply without_absent.
    + by rewrite (without_absent _ (without _ _)) by apply without_removes.
  - intros cause Herr. by rewrite disconnectWorld_run, Herr.
Qed.

Lemma disconnectWorld_idempotent_witness :
  run (disconnectWorld Sample.calm (Sample.with_body EmptyString)) Sample.registry
    = (Done ({| StatusCode := 200; Body := "Disconnected." |}, None),
       State Sample.registry [])
  ∧ run (disconnectWorld Sample.outage (Sample.with_body EmptyString)) Sample.registry
    = (Done ({| StatusCode := 500;
                Body := "Failed to disconnect: "
                        +:+ "ResourceNotFoundException: table not found" |}, None),
       State Sample.registry []).
Proof.
  split.
  - destruct (disconnectWorld_idempotent Sample.calm (Sample.with_body EmptyString)
                Sample.registry) as [Hok _].
    destruct Hok as (Hrun & Habsent & _); [reflexivity|].
    rewrite Hrun, Habsent; [reflexivity|]. by_evaluation.
  - apply (disconnectWorld_idempotent Sample.outage (Sample.with_body EmptyString)
             Sample.registry). reflexivity.
Defined.

(** C9: when the backend answers [PutItem] without error, [connectWorld]
    responds with status 200 and [Connected.] and the table then has exactly
    one row for the connection, whether or not it had one (or several)
    before; connecting the same identifier again leaves exactly one.  When
    the backend answers with an error, the response is status 500 and
    [Failed to connect: ] followed by the error, and the table is
    unchanged.  Whatever connects, disconnects and cleanups are performed,
    on backends that work or fail, a table in which no identifier has two
    rows stays so; in particular this holds starting from the empty
    table. *)
Theorem connectWorld_idempotent (w : World)
    (request : APIGatewayWebsocketProxyRequest) (rows : list dynamodb.Item)
    (ops : list operation) :
  (PutItem_err w = None →
     fst (run (connectWorld w request) rows)
       = Done ({| StatusCode := 200; Body := "Connected." |}, None)
     ∧ registered (ConnectionID (RequestContext request))
         (table (snd (run (connectWorld w request) rows))) = 1
     ∧ registered (ConnectionID (RequestContext request))
         (table (snd (run (connectWorld w request)
                        (table (snd (run (connectWorld w request) rows)))))) = 1)
  ∧ (∀ cause, PutItem_err w = Some cause →
       run (connectWorld w request) rows
       = (Done ({| StatusCode := 500; Body := "Failed to connect: " +:+ cause |},
                None),
          State rows []))
  ∧ ((∀ c, registered c rows ≤ 1) → ∀ c, registered c (foldl perform rows ops) ≤ 1)
  ∧ (∀ c, registered c (foldl perform [] ops) ≤ 1).
Proof.
  split; [|split; [|split]].
  - intros Hok. rewrite !connectWorld_run, Hok. simpl.
    rewrite !registered_app, !registered_without, !registered_keyed.
    by rewrite !decide_True.
  - intros cause Herr. by rewrite connectWorld_run, Herr.
  - apply foldl_perform_unique.
  - apply foldl_perform_unique. intros c. unfold registered. simpl. lia.
Qed.

Lemma connectWorld_idempotent_witness :
  registered "sender"
    (table (snd (run (connectWorld Sample.calm (Sample.with_body EmptyString))
                   [keyed "sender"; keyed "A"]))) = 1
  ∧ run (connectWorld Sample.outage (Sample.with_body EmptyString)) Sample.registry
    = (Done ({| StatusCode := 500;
                Body := "Failed to connect: "
                        +:+ "ResourceNotFoundException: table not found" |}, None),
       State Sample.registry [])
  ∧ (∀ c, registered c
            (foldl perform [keyed "A"]
               [Connect Sample.calm (Sample.with_body EmptyString);
                Connect Sample.calm (Sample.with_body EmptyString);
                Cleanup Sample.calm "A"]) ≤ 1).
Proof.
  destruct (connectWorld_idempotent Sample.calm (Sample.with_body EmptyString)
              [keyed "sender"; keyed "A"] []) as (Hok & _ & _ & _).
  destruct (connectWorld_idempotent Sample.outage (Sample.with_body EmptyString)
              Sample.registry []) as (_ & Herr & _ & _).
  destruct (connectWorld_idempotent Sample.calm (Sample.with_body EmptyString)
              [keyed "A"]
              [Connect Sample.calm (Sample.with_body EmptyString);
               Connect Sample.calm (Sample.with_body EmptyString);
               Cleanup Sample.calm "A"]) as (_ & _ & Hinv & _).
  split; [|split].
  - apply Hok. reflexivity.
  - apply Herr. reflexivity.
  - apply Hinv. intros c. rewrite registered_keyed. case_decide; lia.
Defined.

(** * Further properties of the handlers *)

(** ** [strings.Contains] *)

Lemma prefix_spec (sub s : string) :
  String.prefix sub s = true ↔ ∃ suf, s = sub +:+ suf.
Proof.
  revert s. induction sub as [|c sub IH]; intros [|c' s]; simpl.
  - split; [by exists EmptyString | done].
  - split; [by exists (String c' s) | done].
  - split; [done | by intros [suf Hs]].
  - destruct (ascii_dec c c') as [->|Hne].
    + rewrite IH. split; intros [suf Hs]; exists suf.
      * by rewrite Hs.
      * change (String c' s = String c' (sub +:+ suf)) in Hs. congruence.
    + split; [done|]. intros [suf Hs].
      change (String c' s = String c (sub +:+ suf)) in Hs. congruence.
Qed.

Lemma Contains_spec (s sub : string) :
  Contains s sub = true ↔ ∃ pre suf, s = pre +:+ sub +:+ suf.
Proof.
  induction s as [|c s IH]; cbn [Contains]; rewrite orb_true_iff, prefix_spec.
  - split.
    + intros [[suf Hs]|]; [|done]. by exists EmptyString, suf.
    + intros (pre & suf & Hs). left. destruct pre; [by exists suf | done].
  - rewrite IH. split.
    + intros [[suf Hs]|(pre & suf & ->)]; [by exists EmptyString, suf|].
      by exists (String c pre), suf.
    + intros (pre & suf & Hs). destruct pre as [|c' pre].
      * left. by exists suf.
      * right. exists pre, suf.
        change (String c s = String c' (pre +:+ sub +:+ suf)) in Hs. congruence.
Qed.

(** ** The shape of every fanout *)

(** The rows [items] have all been handled: each was posted to once, in
    order, and each failed post got its one reaction. *)
Definition fanned (w : World) (d : json.RawMessage) (items : list dynamodb.Item)
    (tr : list event) : Prop :=
  deliveries tr = (λ item, (receiver item, d)) <$> items
  ∧ spawned tr = filter (λ c, cleanup w d c) (receiver <$> items)
  ∧ warnings tr = omap (logged w d) (receiver <$> items).

(** The fanout over [items] has gone some way: the rows [handled] are
    done, and there may be one more row whose post is [pending]. *)
Definition orderly (w : World) (d : json.RawMessage) (items : list dynamodb.Item)
    (tr : list event) : Prop :=
  ∃ handled pending,
    handled ++ pending `prefix_of` items
    ∧ length pending ≤ 1
    ∧ deliveries tr = (λ item, (receiver item, d)) <$> (handled ++ pending)
    ∧ spawned tr = filter (λ c, cleanup w d c) (receiver <$> handled)
    ∧ warnings tr = omap (logged w d) (receiver <$> handled).

Section Shape.

Variable w : World.
Variable objMap : json.objMap.
Variable d : json.RawMessage.
Hypothesis Hdata : index_data objMap = Some d.

Lemma fanned_nil : fanned w d [] [].
Proof. by repeat split. Qed.

Lemma fanned_app (items1 items2 : list dynamodb.Item) (tr1 tr2 : list event) :
  fanned w d items1 tr1 → fanned w d items2 tr2 →
  fanned w d (items1 ++ items2) (tr1 ++ tr2).
Proof.
  intros (Hd1 & Hs1 & Hw1) (Hd2 & Hs2 & Hw2). repeat split.
  - by rewrite deliveries_app, Hd1, Hd2, fmap_app.
  - by rewrite spawned_app, Hs1, Hs2, fmap_app, filter_app.
  - by rewrite warnings_app, Hw1, Hw2, fmap_app, omap_app.
Qed.

Lemma fanned_scan (items : list dynamodb.Item) (tr : list event) (n : nat) :
  fanned w d items tr → fanned w d items (Scan n :: tr).
Proof. done. Qed.

Lemma fanned_page (page : list dynamodb.Item) :
  fanned w d page (page_events w d page).
Proof.
  repeat split; [apply deliveries_page | apply spawned_page | apply warnings_page].
Qed.

Lemma fanned_orderly (items : list dynamodb.Item) (tr : list event) :
  fanned w d items tr → orderly w d items tr.
Proof.
  intros (Hd & Hs & Hw). exists items, []. rewrite app_nil_r.
  repeat split; simpl; try done. lia.
Qed.

Lemma orderly_weaken (items more : list dynamodb.Item) (tr : list event) :
  orderly w d items tr → orderly w d (items ++ more) tr.
Proof.
  intros (handled & pending & Hpre & Hlen & Hd & Hs & Hw).
  exists handled, pending. repeat split; try done. by apply prefix_app_r.
Qed.

Lemma orderly_app (items1 items2 : list dynamodb.Item) (tr1 tr2 : list event) :
  fanned w d items1 tr1 → orderly w d items2 tr2 →
  orderly w d (items1 ++ items2) (tr1 ++ tr2).
Proof.
  intros (Hd1 & Hs1 & Hw1) (handled & pending & Hpre & Hlen & Hd2 & Hs2 & Hw2).
  exists (items1 ++ handled), pending. repeat split; try done.
  - rewrite <- app_assoc. by apply prefix_app.
  - by rewrite deliveries_app, Hd1, Hd2, <- app_assoc, !fmap_app.
  - by rewrite spawned_app, Hs1, Hs2, fmap_app, filter_app.
  - by rewrite warnings_app, Hw1, Hw2, fmap_app, omap_app.
Qed.

Lemma orderly_scan (items : list dynamodb.Item) (tr : list event) (n : nat) :
  orderly w d items tr → orderly w d items (Scan n :: tr).
Proof. done. Qed.

Lemma orderly_nil (items : list dynamodb.Item) : orderly w d items [].
Proof. exists [], []. repeat split; simpl; try done; [apply prefix_nil | lia]. Qed.

(** One row, whatever it is and whatever the post does. *)
Lemma eachItem_shape (item : dynamodb.Item) (st : state) :
  ∃ tr,
    snd (eachItem_body w objMap item st) = State (table st) (trace st ++ tr)
    ∧ orderly w d [item] tr
    ∧ (fst (eachItem_body w objMap item st) = Done tt → fanned w d [item] tr).
Proof.
  destruct (item !! ddbAttributeConnectionID) as [attr|] eqn:Hattr.
  - assert (has_connectionID item) as Hhas by (by exists attr).
    destruct (post w (receiver item) d) as [|e|] eqn:Hpost.
    + rewrite (eachItem_answered w objMap d Hdata)
        by (done || unfold answered; by rewrite Hpost).
      exists (item_events w d item). simpl.
      assert (fanned w d [item] (item_events w d item)) as Hf.
      { rewrite <- (app_nil_r (item_events w d item)). apply (fanned_page [item]). }
      split; [done|]. split; [by apply fanned_orderly | done].
    + rewrite (eachItem_answered w objMap d Hdata)
        by (done || unfold answered; by rewrite Hpost).
      exists (item_events w d item). simpl.
      assert (fanned w d [item] (item_events w d item)) as Hf.
      { rewrite <- (app_nil_r (item_events w d item)). apply (fanned_page [item]). }
      split; [done|]. split; [by apply fanned_orderly | done].
    + rewrite (eachItem_unanswered w objMap d Hdata) by done.
      exists [PostToConnection (receiver item) d]. simpl.
      split; [done|]. split; [|done].
      exists [], [item]. repeat split; simpl; try done; lia.
  - rewrite eachItem_no_attribute by done.
    exists []. simpl. rewrite state_eta. split; [done|].
    split; [apply orderly_nil | done].
Qed.

Lemma range_shape (items : list dynamodb.Item) (st : state) :
  ∃ tr,
    snd (range items (eachItem_body w objMap) st)
      = State (table st) (trace st ++ tr)
    ∧ orderly w d items tr
    ∧ (fst (range items (eachItem_body w objMap) st) = Done tt →
       fanned w d items tr).
Proof.
  revert st. induction items as [|item items IH]; intros st; simpl.
  - exists []. rewrite state_eta. split; [done|].
    split; [apply orderly_nil | intros _; apply fanned_nil].
  - rewrite bind_run.
    destruct (eachItem_shape item st) as (tr1 & Hst1 & Hord1 & Hfan1).
    destruct (eachItem_body w objMap item st) as [[[]| |] st1]; simpl in *;
      subst st1.
    + destruct (IH (State (table st) (trace st ++ tr1)))
        as (tr2 & Hst2 & Hord2 & Hfan2).
      exists (tr1 ++ tr2). rewrite Hst2. simpl. rewrite <- app_assoc.
      split; [done|]. split.
      * apply (orderly_app [item]); [by apply Hfan1 | done].
      * intros Hdone. apply (fanned_app [item]); [by apply Hfan1 | by apply Hfan2].
    + exists tr1. split; [done|]. split; [|done].
      by apply (orderly_weaken [item]).
    + exists tr1. split; [done|]. split; [|done].
      by apply (orderly_weaken [item]).
Qed.

Lemma scanCallback_shape (page : list dynamodb.Item) (lastPage : bool) (st : state) :
  ∃ tr,
    snd (scanCallback w objMap {| dynamodb.Items := page |} lastPage st)
      = State (table st) (trace st ++ tr)
    ∧ orderly w d page tr
    ∧ fst (scanCallback w objMap {| dynamodb.Items := page |} lastPage st)
      ≠ Done false
    ∧ (fst (scanCallback w objMap {| dynamodb.Items := page |} lastPage st)
       = Done true → fanned w d page tr).
Proof.
  unfold scanCallback. simpl. rewrite bind_run.
  destruct (range_shape page st) as (tr & Hst & Hord & Hfan).
  destruct (range page (eachItem_body w objMap) st) as [[[]| |] st1]; simpl in *;
    subst st1; exists tr; (split; [done|]); (split; [done|]); (split; [done|]);
    try done. intros _. by apply Hfan.
Qed.

Lemma ScanPages_shape (pages : list (list dynamodb.Item)) (n : nat) (st : state) :
  ∃ tr,
    snd (ScanPages_from w n pages (scanCallback w objMap) st)
      = State (table st) (trace st ++ tr)
    ∧ orderly w d (concat pages) tr
    ∧ (fst (ScanPages_from w n pages (scanCallback w objMap) st) = Done None →
       fanned w d (concat pages) tr).
Proof.
  revert n st. induction pages as [|page rest IH]; intros n st; simpl.
  - exists []. rewrite state_eta. split; [done|].
    split; [apply orderly_nil | intros _; apply fanned_nil].
  - rewrite bind_run, emit_run. destruct (Scan_err w n) as [e|]; simpl.
    { exists [Scan n]. split; [done|]. split; [apply orderly_scan, orderly_nil | done]. }
    rewrite bind_run.
    destruct (scanCallback_shape page (bool_decide (rest = []))
                (State (table st) (trace st ++ [Scan n])))
      as (tr1 & Hst1 & Hord1 & Hmore & Hfan1).
    destruct (scanCallback w objMap _ _ _) as [[[|]| |] st1]; simpl in *;
      subst st1; try done.
    + destruct (IH (n + 1) (State (table st) ((trace st ++ [Scan n]) ++ tr1)))
        as (tr2 & Hst2 & Hord2 & Hfan2).
      exists (Scan n :: tr1 ++ tr2). rewrite Hst2. simpl.
      split; [by rewrite <- !app_assoc|]. split.
      * apply orderly_scan, orderly_app; [by apply Hfan1 | done].
      * intros Hdone. apply fanned_scan, fanned_app; [by apply Hfan1 | by apply Hfan2].
    + exists (Scan n :: tr1). rewrite <- app_assoc. split; [done|].
      split; [|done]. by apply orderly_scan, orderly_weaken.
    + exists (Scan n :: tr1). rewrite <- app_assoc. split; [done|].
      split; [|done]. by apply orderly_scan, orderly_weaken.
Qed.

End Shape.

Lemma sendMessage_cases (w : World) (request : APIGatewayWebsocketProxyRequest)
    (st : state) :
  (∃ objMap cause,
     json.Unmarshal (awsEvents.Body request) = (objMap, Some cause)
     ∧ sendMessage w request st
       = (Done (unmarshalFailure cause),
          State (table st) (trace st ++ [endpoint_line request])))
  ∨ (∃ objMap,
       json.Unmarshal (awsEvents.Body request) = (objMap, None)
       ∧ index_data objMap = None
       ∧ sendMessage w request st
         = (Panic nilDereference,
            State (table st) (trace st ++ [endpoint_line request])))
  ∨ (∃ objMap d,
       json.Unmarshal (awsEvents.Body request) = (objMap, None)
       ∧ index_data objMap = Some d).
Proof.
  destruct (json.Unmarshal (awsEvents.Body request)) as [objMap [cause|]] eqn:Hbody.
  - left. exists objMap, cause. split; [done|].
    by apply (sendMessage_unmarshal_error _ _ objMap).
  - destruct (index_data objMap) as [d|] eqn:Hd.
    + right. right. by exists objMap, d.
    + right. left. exists objMap. split; [done|]. split; [done|].
      by apply (sendMessage_no_data _ _ objMap).
Qed.

(** The only panic of the fanout is the nil dereference. *)
Lemma range_panic (w : World) (objMap : json.objMap) (d : json.RawMessage)
    (items : list dynamodb.Item) (st : state) (reason : string) (st' : state) :
  index_data objMap = Some d →
  range items (eachItem_body w objMap) st = (Panic reason, st') →
  reason = nilDereference.
Proof.
  intros Hd. revert st. induction items as [|item items IH]; intros st; simpl;
    [done|].
  rewrite bind_run.
  destruct (item !! ddbAttributeConnectionID) as [attr|] eqn:Hattr.
  - assert (has_connectionID item) as Hhas by (by exists attr).
    destruct (post w (receiver item) d) as [|e|] eqn:Hpost.
    + rewrite (eachItem_answered w objMap d Hd)
        by (done || unfold answered; by rewrite Hpost).
      apply IH.
    + rewrite (eachItem_answered w objMap d Hd)
        by (done || unfold answered; by rewrite Hpost).
      apply IH.
    + by rewrite (eachItem_unanswered w objMap d Hd).
  - rewrite eachItem_no_attribute by done. by intros [= <- _].
Qed.

Lemma ScanPages_panic (w : World) (objMap : json.objMap) (d : json.RawMessage)
    (pages : list (list dynamodb.Item)) (n : nat) (st : state) (reason : string)
    (st' : state) :
  index_data objMap = Some d →
  ScanPages_from w n pages (scanCallback w objMap) st = (Panic reason, st') →
  reason = nilDereference.
Proof.
  intros Hd. revert n st. induction pages as [|page rest IH]; intros n st; simpl;
    [done|].
  rewrite bind_run, emit_run. destruct (Scan_err w n); [done|].
  rewrite bind_run. unfold scanCallback at 1. simpl. rewrite bind_run.
  destruct (range page (eachItem_body w objMap) _) as [[[]| |] st1] eqn:Hrange;
    simpl; [apply IH| |done].
  intros [= <- _]. by apply (range_panic _ _ _ _ _ _ _ Hd Hrange).
Qed.

Lemma sendMessage_shape (w : World) (request : APIGatewayWebsocketProxyRequest)
    (objMap : json.objMap) (d : json.RawMessage) (st : state) :
  json.Unmarshal (awsEvents.Body request) = (objMap, None) →
  index_data objMap = Some d →
  ∃ tr,
    snd (sendMessage w request st)
      = State (table st) (trace st ++ endpoint_line request :: tr)
    ∧ orderly w d (table st) tr
    ∧ (fst (sendMessage w request st) = Done dataSent ∧ fanned w d (table st) tr
       ∨ (∃ cause, fst (sendMessage w request st) = Done (sendFailure cause))
       ∨ fst (sendMessage w request st) = Panic nilDereference
       ∨ fst (sendMessage w request st) = Blocked).
Proof.
  intros Hbody Hd. rewrite (sendMessage_scan _ _ _ _ _ Hbody Hd).
  destruct (ScanPages_shape w objMap d Hd (paginate (pageLimit w) (table st)) 0
              (State (table st) (trace st ++ [endpoint_line request])))
    as (tr & Hst & Hord & Hfan).
  rewrite concat_paginate in Hord, Hfan. simpl in Hst.
  rewrite <- app_assoc in Hst. simpl in Hst.
  destruct (ScanPages_from _ _ _ _ _) as [[[e|]| |] st'] eqn:Hscan;
    simpl in *; subst st'; exists tr; (split; [done|]); (split; [done|]).
  - right. left. by exists e.
  - left. split; [done|]. by apply Hfan.
  - right. right. left. by rewrite (ScanPages_panic _ _ _ _ _ _ _ _ Hd Hscan).
  - by repeat right.
Qed.


(** X2: a scan page is requested, or a post made, only for a body that
    decodes without error and has a [data] member that is not null. *)
Theorem sendMessage_scan_needs_data (w : World)
    (request : APIGatewayWebsocketProxyRequest) (rows : list dynamodb.Item) :
  scans (trace (snd (run (sendMessage w request) rows))) ≠ []
  ∨ deliveries (trace (snd (run (sendMessage w request) rows))) ≠ [] →
  ∃ objMap d,
    json.Unmarshal (awsEvents.Body request) = (objMap, None)
    ∧ index_data objMap = Some d.
Proof.
  unfold run.
  destruct (sendMessage_cases w request (State rows []))
    as [(objMap & cause & _ & ->)|[(objMap & _ & _ & ->)|(objMap & d & Hbody & Hd)]].
  - by intros [?|?].
  - by intros [?|?].
  - intros _. by exists objMap, d.
Qed.

Lemma sendMessage_scan_needs_data_witness :
  ∃ objMap d,
    json.Unmarshal (awsEvents.Body Sample.hello) = (objMap, None)
    ∧ index_data objMap = Some d.
Proof.
  apply (sendMessage_scan_needs_data Sample.calm Sample.hello Sample.registry).
  left. vm_compute. discriminate.
Defined.

(** X3: whatever the backend and the endpoint do (scan requests that fail,
    rows without the attribute, posts that fail or never come back), the
    posts of a broadcast are an initial part of the table's rows in scan
    order, each with the [data] member of the body: no row is posted to
    twice or out of turn, and nothing else is ever sent. *)
Theorem deliveries_follow_scan_order (w : World)
    (request : APIGatewayWebsocketProxyRequest)
    (objMap : json.objMap) (d : json.RawMessage) (rows : list dynamodb.Item) :
  json.Unmarshal (awsEvents.Body request) = (objMap, None) →
  index_data objMap = Some d →
  deliveries (trace (snd (run (sendMessage w request) rows)))
    `prefix_of` (λ item, (receiver item, d)) <$> rows.
Proof.
  intros Hbody Hd. unfold run.
  destruct (sendMessage_shape w request objMap d (State rows []) Hbody Hd)
    as (tr & -> & (handled & pending & Hpre & _ & Hdel & _) & _).
  simpl in *. change (deliveries (endpoint_line request :: tr)) with (deliveries tr).
  rewrite Hdel. destruct Hpre as [more ->]. rewrite (fmap_app _ (handled ++ pending)).
  by apply prefix_app_r.
Qed.

Lemma deliveries_follow_scan_order_witness :
  deliveries (trace (snd (run (sendMessage Sample.stalled Sample.hello)
                            [keyed "C"; keyed "A"; keyed "B"])))
    `prefix_of` [("C", Sample.quoted "hello"); ("A", Sample.quoted "hello");
                 ("B", Sample.quoted "hello")].
Proof.
  apply (deliveries_follow_scan_order Sample.stalled Sample.hello Sample.hello_map
           (Sample.quoted "hello") [keyed "C"; keyed "A"; keyed "B"]).
  - vm_compute. reflexivity.
  - reflexivity.
Defined.

(** X4: whatever the backend and the endpoint do, a goroutine that deletes
    a connection is started only for a connection with a non-empty name,
    that has been posted to in this broadcast, and whose post came back with
    an error that has [GoneException] somewhere in its text. *)
Theorem cleanup_only_when_gone (w : World)
    (request : APIGatewayWebsocketProxyRequest)
    (objMap : json.objMap) (d : json.RawMessage) (rows : list dynamodb.Item)
    (c : string) :
  json.Unmarshal (awsEvents.Body request) = (objMap, None) →
  index_data objMap = Some d →
  c ∈ spawned (trace (snd (run (sendMessage w request) rows))) →
  c ≠ EmptyString
  ∧ (c, d) ∈ deliveries (trace (snd (run (sendMessage w request) rows)))
  ∧ ∃ pre suf,
      post w c d = apigwManagement.PostFailed (pre +:+ "GoneException" +:+ suf).
Proof.
  intros Hbody Hd. unfold run.
  destruct (sendMessage_shape w request objMap d (State rows []) Hbody Hd)
    as (tr & -> & (handled & pending & _ & _ & Hdel & Hgo & _) & _).
  simpl. change (deliveries (endpoint_line request :: tr)) with (deliveries tr).
  change (spawned (endpoint_line request :: tr)) with (spawned tr).
  rewrite Hdel, Hgo. intros [Hclean Hin]%list_elem_of_filter.
  unfold cleanup, Gone in Hclean.
  destruct (String.eqb_spec c EmptyString) as [->|Hne]; [done|].
  split; [done|]. split.
  - rewrite fmap_app. apply elem_of_app. left.
    apply list_elem_of_fmap in Hin as (item & -> & Hin).
    by apply (list_elem_of_fmap_2 (λ item, (receiver item, d))).
  - destruct (post w c d) as [|e|]; simpl in Hclean; try done.
    apply Is_true_true, Contains_spec in Hclean as (pre & suf & ->).
    by exists pre, suf.
Qed.

Lemma cleanup_only_when_gone_witness :
  "B" ≠ EmptyString
  ∧ ("B", Sample.quoted "hello")
    ∈ deliveries (trace (snd (run (sendMessage Sample.scenario Sample.hello)
                                Sample.registry)))
  ∧ ∃ pre suf,
      post Sample.scenario "B" (Sample.quoted "hello")
      = apigwManagement.PostFailed (pre +:+ "GoneException" +:+ suf).
Proof.
  apply (cleanup_only_when_gone Sample.scenario Sample.hello Sample.hello_map
           (Sample.quoted "hello") Sample.registry "B").
  - vm_compute. reflexivity.
  - reflexivity.
  - vm_compute. apply list_elem_of_here.
Defined.

(** X5: whatever the backend and the endpoint do, a warning is logged only
    with the error of a post of this broadcast that failed, and only when
    the connection name is empty or the error does not mention
    [GoneException]. *)
Theorem warning_only_for_failed_post (w : World)
    (request : APIGatewayWebsocketProxyRequest)
    (objMap : json.objMap) (d : json.RawMessage) (rows : list dynamodb.Item)
    (e : string) :
  json.Unmarshal (awsEvents.Body request) = (objMap, None) →
  index_data objMap = Some d →
  e ∈ warnings (trace (snd (run (sendMessage w request) rows))) →
  ∃ c,
    (c, d) ∈ deliveries (trace (snd (run (sendMessage w request) rows)))
    ∧ post w c d = apigwManagement.PostFailed e
    ∧ (c = EmptyString
       ∨ Contains e apigwManagement.ErrCodeGoneException = false).
Proof.
  intros Hbody Hd. unfold run.
  destruct (sendMessage_shape w request objMap d (State rows []) Hbody Hd)
    as (tr & -> & (handled & pending & _ & _ & Hdel & _ & Hwarn) & _).
  simpl. change (deliveries (endpoint_line request :: tr)) with (deliveries tr).
  change (warnings (endpoint_line request :: tr)) with (warnings tr).
  rewrite Hdel, Hwarn. intros (c & Hin & Hlog)%list_elem_of_omap.
  exists c. split.
  - rewrite fmap_app. apply elem_of_app. left.
    apply list_elem_of_fmap in Hin as (item & -> & Hin).
    by apply (list_elem_of_fmap_2 (λ item, (receiver item, d))).
  - unfold logged, cleanup, Gone, failure in Hlog.
    destruct (post w c d) as [|e'|]; simpl in Hlog;
      rewrite ?andb_false_r in Hlog; try done.
    destruct (String.eqb_spec c EmptyString) as [->|Hne]; simpl in Hlog.
    + injection Hlog as ->. by split; [|left].
    + destruct (Contains e' _) eqn:E; [done|].
      injection Hlog as ->. by split; [|right].
Qed.

Lemma warning_only_for_failed_post_witness :
  ∃ c,
    (c, Sample.quoted "hello")
      ∈ deliveries (trace (snd (run (sendMessage Sample.scenario Sample.hello)
                                  Sample.registry)))
    ∧ post Sample.scenario c (Sample.quoted "hello")
      = apigwManagement.PostFailed "LimitExceededException: status code: 429"
    ∧ (c = EmptyString
       ∨ Contains "LimitExceededException: status code: 429"
           apigwManagement.ErrCodeGoneException = false).
Proof.
  apply (warning_only_for_failed_post Sample.scenario Sample.hello Sample.hello_map
           (Sample.quoted "hello") Sample.registry
           "LimitExceededException: status code: 429").
  - vm_compute. reflexivity.
  - reflexivity.
  - vm_compute. apply list_elem_of_here.
Defined.

(** X6: a response with status 200 is given only when the body had its
    [data] member and every row of the table has been posted to, once and
    in scan order; its text is then [Data sent.]. *)
Theorem status_200_means_all_posted (w : World)
    (request : APIGatewayWebsocketProxyRequest) (rows : list dynamodb.Item)
    (response : wsResponse) (err : option string) :
  fst (run (sendMessage w request) rows) = Done (response, err) →
  StatusCode response = 200%Z →
  Body response = "Data sent."
  ∧ ∃ objMap d,
      json.Unmarshal (awsEvents.Body request) = (objMap, None)
      ∧ index_data objMap = Some d
      ∧ deliveries (trace (snd (run (sendMessage w request) rows)))
        = (λ item, (receiver item, d)) <$> rows.
Proof.
  unfold run.
  destruct (sendMessage_cases w request (State rows []))
    as [(objMap & cause & _ & ->)|[(objMap & _ & _ & ->)|(objMap & d & Hbody & Hd)]].
  - simpl. by intros [= <- <-].
  - done.
  - destruct (sendMessage_shape w request objMap d (State rows []) Hbody Hd)
      as (tr & -> & _ & [[-> (Hdel & _)]|[[cause ->]|[->| ->]]]); simpl; try done.
    + intros [= <- <-] _. split; [done|]. by exists objMap, d.
    + by intros [= <- <-].
Qed.

Lemma status_200_means_all_posted_witness :
  Body {| StatusCode := 200; Body := "Data sent." |} = "Data sent."
  ∧ ∃ objMap d,
      json.Unmarshal (awsEvents.Body Sample.hello) = (objMap, None)
      ∧ index_data objMap = Some d
      ∧ deliveries (trace (snd (run (sendMessage Sample.scenario Sample.hello)
                                  Sample.registry)))
        = (λ item, (receiver item, d)) <$> Sample.registry.
Proof.
  apply (status_200_means_all_posted Sample.scenario Sample.hello Sample.registry
           {| StatusCode := 200; Body := "Data sent." |} None).
  - vm_compute. reflexivity.
  - reflexivity.
Defined.

(** X7: whenever one of the three handlers returns, the Go error it
    returns is nil and the status code of its response is 200 or 500. *)
Theorem handlers_answer_200_or_500 (w : World)
    (request : APIGatewayWebsocketProxyRequest) (st : state)
    (response : wsResponse) (err : option string) :
  fst (connectWorld w request st) = Done (response, err)
  ∨ fst (disconnectWorld w request st) = Done (response, err)
  ∨ fst (sendMessage w request st) = Done (response, err) →
  err = None ∧ (StatusCode response = 200%Z ∨ StatusCode response = 500%Z).
Proof.
  intros [H|[H|H]]; revert H.
  - unfold connectWorld, PutItem. rewrite bind_run.
    destruct (PutItem_err w); simpl; intros [= <- <-]; auto.
  - unfold disconnectWorld, deleteConnection, DeleteItem. rewrite bind_run.
    destruct (DeleteItem_err w); simpl; intros [= <- <-]; auto.
  - destruct (sendMessage_cases w request st)
      as [(objMap & cause & _ & ->)|[(objMap & _ & _ & ->)|(objMap & d & Hbody & Hd)]].
    + simpl. intros [= <- <-]. auto.
    + done.
    + destruct (sendMessage_shape w request objMap d st Hbody Hd)
        as (tr & _ & _ & [[-> _]|[[cause ->]|[->| ->]]]); simpl; try done;
        intros [= <- <-]; auto.
Qed.

Lemma handlers_answer_200_or_500_witness :
  @None string = None ∧ (200 = 200 ∨ 200 = 500)%Z.
Proof.
  apply (handlers_answer_200_or_500 Sample.calm Sample.hello
           (State Sample.registry [])
           {| StatusCode := 200; Body := "Data sent." |} None).
  right. right. vm_compute. reflexivity.
Defined.

(** ** How the handlers compose *)

Lemma filter_ext_in {A} (P Q : A → Prop) `{!∀ x, Decision (P x), !∀ x, Decision (Q x)}
    (l : list A) :
  (∀ x, x ∈ l → P x ↔ Q x) → filter P l = filter Q l.
Proof.
  induction l as [|x l IH]; intros Hext; [done|].
  rewrite !filter_cons.
  rewrite IH by (intros y Hy; apply Hext; by apply list_elem_of_further).
  pose proof (Hext x (list_elem_of_here _ _)) as Hx.
  destruct (decide (P x)) as [HP|HP], (decide (Q x)) as [HQ|HQ]; try done;
    exfalso; tauto.
Qed.

Lemma Forall_without {P : dynamodb.Item → Prop} (c : string)
    (rows : list dynamodb.Item) :
  Forall P rows → Forall P (without c rows).
Proof.
  rewrite !Forall_forall. intros HP row [_ Hin]%list_elem_of_filter. by apply HP.
Qed.

Lemma without_without (c : string) (rows : list dynamodb.Item) :
  without c (without c rows) = without c rows.
Proof. apply without_absent, without_removes. Qed.

Lemma without_app (c : string) (rows1 rows2 : list dynamodb.Item) :
  without c (rows1 ++ rows2) = without c rows1 ++ without c rows2.
Proof. apply filter_app. Qed.

Lemma without_keyed (c : string) : without c [keyed c] = [].
Proof.
  unfold without. rewrite filter_cons, filter_nil, key_of_keyed.
  by rewrite decide_False by (by intros H).
Qed.

Lemma receiver_key (item : dynamodb.Item) (c : string) :
  c ≠ EmptyString → receiver item = c → key_of item = Some c.
Proof.
  unfold receiver. intros Hne Hrecv. destruct (key_of item); simpl in *; congruence.
Qed.

(** X8: a connect or a disconnect for one connection, whether the backend
    accepts it or not, leaves the rows of all other connections in the
    table, in their order. *)
Theorem handlers_leave_other_rows (w : World)
    (request : APIGatewayWebsocketProxyRequest) (rows : list dynamodb.Item) :
  without (ConnectionID (RequestContext request))
    (table (snd (run (connectWorld w request) rows)))
  = without (ConnectionID (RequestContext request)) rows
  ∧ without (ConnectionID (RequestContext request))
      (table (snd (run (disconnectWorld w request) rows)))
    = without (ConnectionID (RequestContext request)) rows.
Proof.
  rewrite connectWorld_run, disconnectWorld_run. split.
  - destruct (PutItem_err w); simpl; [done|].
    by rewrite without_app, without_without, without_keyed, app_nil_r.
  - destruct (DeleteItem_err w); simpl; [done|]. apply without_without.
Qed.

(** X9: on a backend that works, a disconnect after a connect of the same
    connection leaves the table as the disconnect alone would; when the
    connection was not in the table, the table is back as it was. *)
Theorem connect_then_disconnect (w1 w2 : World)
    (request : APIGatewayWebsocketProxyRequest) (rows : list dynamodb.Item) :
  PutItem_err w1 = None →
  DeleteItem_err w2 = None →
  table (snd (run (disconnectWorld w2 request)
                (table (snd (run (connectWorld w1 request) rows)))))
  = without (ConnectionID (RequestContext request)) rows
  ∧ (Some (ConnectionID (RequestContext request)) ∉ key_of <$> rows →
     table (snd (run (disconnectWorld w2 request)
                   (table (snd (run (connectWorld w1 request) rows)))))
     = rows).
Proof.
  intros Hput Hdel. rewrite connectWorld_run, Hput. simpl.
  rewrite disconnectWorld_run, Hdel. simpl.
  rewrite without_app, without_without, without_keyed, app_nil_r.
  split; [done|]. apply without_absent.
Qed.

Lemma connect_then_disconnect_witness :
  table (snd (run (disconnectWorld Sample.calm (Sample.with_body EmptyString))
                (table (snd (run (connectWorld Sample.calm
                                    (Sample.with_body EmptyString))
                               Sample.registry)))))
  = Sample.registry.
Proof.
  destruct (connect_then_disconnect Sample.calm Sample.calm
              (Sample.with_body EmptyString) Sample.registry) as [_ Hback].
  - reflexivity.
  - reflexivity.
  - apply Hback. by_evaluation.
Defined.



(** X11: after a disconnect that the backend accepted, no broadcast,
    whatever its body and whatever the backend and the endpoint do, posts to
    the connection (its name not being empty). *)
Theorem disconnect_then_broadcast (w1 w2 : World)
    (disconnect broadcast : APIGatewayWebsocketProxyRequest)
    (rows : list dynamodb.Item) (d : json.RawMessage) :
  DeleteItem_err w1 = None →
  ConnectionID (RequestContext disconnect) ≠ EmptyString →
  (ConnectionID (RequestContext disconnect), d)
  ∉ deliveries (trace (snd (run (sendMessage w2 broadcast)
                              (table (snd (run (disconnectWorld w1 disconnect)
                                             rows)))))).
Proof.
  intros Hdel Hne. rewrite disconnectWorld_run, Hdel. simpl. unfold run.
  set (c := ConnectionID (RequestContext disconnect)) in *.
  destruct (sendMessage_cases w2 broadcast (State (without c rows) []))
    as [(objMap & cause & _ & ->)|[(objMap & _ & _ & ->)|(objMap & d' & Hbody & Hd)]].
  - simpl. apply not_elem_of_nil.
  - simpl. apply not_elem_of_nil.
  - destruct (sendMessage_shape w2 broadcast objMap d' (State (without c rows) [])
                Hbody Hd)
      as (tr & -> & (handled & pending & Hpre & _ & Hdeliv & _) & _).
    simpl in *. change (deliveries (endpoint_line broadcast :: tr)) with (deliveries tr).
    rewrite Hdeliv. intros (item & [= Hrecv _] & Hin)%list_elem_of_fmap.
    destruct Hpre as [more Hrows].
    assert (item ∈ without c rows) as Hitem
      by (rewrite Hrows; apply elem_of_app; by left).
    apply (without_removes c rows). apply list_elem_of_fmap. exists item.
    split; [|done]. symmetry. by apply receiver_key.
Qed.

Lemma disconnect_then_broadcast_witness :
  ("sender", Sample.quoted "hello")
  ∉ deliveries (trace (snd (run (sendMessage Sample.calm Sample.hello)
                              (table (snd (run (disconnectWorld Sample.calm
                                                  Sample.hello)
                                             [keyed "sender"; keyed "A"])))))).
Proof.
  apply (disconnect_then_broadcast Sample.calm Sample.calm Sample.hello Sample.hello
           [keyed "sender"; keyed "A"] (Sample.quoted "hello")).
  - reflexivity.
  - discriminate.
Defined.

(** ** Self-healing *)

Lemma settle_working (ws : list World) (ids : list string) (rows : list dynamodb.Item) :
  Forall (λ w, DeleteItem_err w = None) ws →
  length ws = length ids →
  settle ws ids rows = filter (λ row, key_of row ∉ Some <$> ids) rows.
Proof.
  intros Hws. revert ids rows.
  induction Hws as [|w ws Hw Hws IH]; intros [|c ids] rows Hlen; simpl in Hlen;
    try done.
  - simpl. induction rows as [|row rows IHrows]; [done|].
    rewrite filter_cons, decide_True by apply not_elem_of_nil. by f_equal.
  - simpl. unfold deleteConnection, DeleteItem. rewrite Hw. simpl.
    rewrite key_of_keyed, IH by lia. rewrite list_filter_filter.
    apply list_filter_iff. intros row. rewrite ?fmap_cons, not_elem_of_cons.
    split; (intros [? ?]; split; assumption).
Qed.

Lemma settle_keeps (ws : list World) (ids : list string) (rows : list dynamodb.Item)
    (row : dynamodb.Item) :
  row ∈ rows → key_of row ∉ Some <$> ids → row ∈ settle ws ids rows.
Proof.
  revert ws rows. induction ids as [|c ids IH]; intros [|w ws] rows Hin Hnot;
    simpl; try done.
  rewrite fmap_cons, not_elem_of_cons in Hnot. destruct Hnot as [Hc Hnot].
  apply IH; [|done]. unfold deleteConnection, DeleteItem.
  destruct (DeleteItem_err w); simpl; [done|].
  apply list_elem_of_filter. by rewrite key_of_keyed.
Qed.

(** X12: after a broadcast whose scan ran to its end, once the goroutines
    it started have run, the rows of the connections that were not gone are
    all still in the table, whether the deletes succeeded or not; when the
    backend accepted every delete, the table holds exactly those rows, in
    their order. *)
Theorem cleanup_heals_registry (w : World)
    (request : APIGatewayWebsocketProxyRequest)
    (objMap : json.objMap) (d : json.RawMessage) (rows : list dynamodb.Item)
    (ws : list World) :
  json.Unmarshal (awsEvents.Body request) = (objMap, None) →
  index_data objMap = Some d →
  (∀ n, n < length (paginate (pageLimit w) rows) → Scan_err w n = None) →
  Forall has_connectionID rows →
  Forall (answered w d) rows →
  (∀ row, row ∈ rows → cleanup w d (receiver row) = false →
     row ∈ settle ws (spawned (trace (snd (run (sendMessage w request) rows)))) rows)
  ∧ (Forall (λ w', DeleteItem_err w' = None) ws →
     length ws = length (spawned (trace (snd (run (sendMessage w request) rows)))) →
     settle ws (spawned (trace (snd (run (sendMessage w request) rows)))) rows
     = filter (λ row, cleanup w d (receiver row) = false) rows).
Proof.
  intros Hbody Hd Herr Hattr Hans.
  destruct (sendMessage_trace _ _ _ _ _ Hbody Hd Herr Hattr Hans) as (_ & -> & _).
  assert (∀ row, row ∈ rows →
            key_of row ∉ Some <$> filter (λ c, cleanup w d c) (receiver <$> rows)
            ↔ cleanup w d (receiver row) = false) as Hkey.
  { intros row Hin. split.
    - intros Hnot. destruct (cleanup w d (receiver row)) eqn:Hc; [|done].
      exfalso. apply Hnot. apply list_elem_of_fmap. exists (receiver row). split.
      + apply receiver_key; [|done]. intros Hempty. unfold cleanup in Hc.
        by rewrite Hempty in Hc.
      + apply list_elem_of_filter. split; [by rewrite Hc|].
        by apply list_elem_of_fmap_2.
    - intros Hc (c & Hkeyc & [Hclean _]%list_elem_of_filter)%list_elem_of_fmap.
      assert (receiver row = c) as Hrecv by (unfold receiver; by rewrite Hkeyc).
      rewrite Hrecv in Hc. by rewrite Hc in Hclean. }
  split.
  - intros row Hin Hc. apply settle_keeps; [done|]. by apply Hkey.
  - intros Hws Hlen. rewrite settle_working by done. by apply filter_ext_in.
Qed.

Lemma cleanup_heals_registry_witness :
  settle [Sample.calm]
    (spawned (trace (snd (run (sendMessage Sample.scenario Sample.hello)
                            Sample.registry)))) Sample.registry
  = filter (λ row, cleanup Sample.scenario (Sample.quoted "hello") (receiver row)
                   = false) Sample.registry.
Proof.
  destruct (cleanup_heals_registry Sample.scenario Sample.hello Sample.hello_map
              (Sample.quoted "hello") Sample.registry [Sample.calm]) as [_ Hexact].
  - vm_compute. reflexivity.
  - reflexivity.
  - intros n _. reflexivity.
  - by_evaluation.
  - by_evaluation.
  - apply Hexact; [by_evaluation | reflexivity].
Defined.

(** ** A text message, from the body to the connections *)

(** The bytes that stand for themselves inside a JSON string. *)
Definition plain (c : byte) : bool :=
  (32 <=? code c) && negb (is_byte c dquote) && negb (is_byte c "\").

Fixpoint plain_text (m : string) : bool :=
  match m with
  | EmptyString => true
  | String c m' => plain c && plain_text m'
  end.

(** The body whose only member is [data], bound to the JSON string [m]. *)
Definition message_body (m : string) : string :=
  "{" +:+ Sample.quoted "data" +:+ ":" +:+ Sample.quoted m +:+ "}".

Lemma append_assoc (s1 s2 s3 : string) : (s1 +:+ s2) +:+ s3 = s1 +:+ s2 +:+ s3.
Proof.
  induction s1 as [|c s1 IH]; [done|].
  change (String c ((s1 +:+ s2) +:+ s3) = String c (s1 +:+ s2 +:+ s3)).
  by rewrite IH.
Qed.

Lemma message_body_parts (m : string) :
  message_body m
  = ("{" +:+ Sample.quoted "data" +:+ ":" +:+ String dquote EmptyString)
      +:+ m +:+ String dquote "}".
Proof.
  unfold message_body, Sample.quoted.
  change (String "{" (String dquote (String "d" (String "a" (String "t" (String "a"
            (String dquote (String ":"
               (String dquote ((m +:+ String dquote EmptyString) +:+ "}")))))))))
          = String "{" (String dquote (String "d" (String "a" (String "t" (String "a"
            (String dquote (String ":"
               (String dquote (m +:+ String dquote "}")))))))))).
  by rewrite append_assoc.
Qed.

Lemma stateInString_plain (s : json.scanner) (c : byte) :
  plain c = true → json.stateInString_fn s c = json.scanOk s.
Proof.
  unfold plain, json.stateInString_fn.
  intros [[Hlow Hquote%negb_true_iff]%andb_true_iff Hback%negb_true_iff]%andb_true_iff.
  rewrite Hquote, Hback.
  apply Nat.leb_le in Hlow. by rewrite (proj2 (Nat.ltb_ge _ _) Hlow).
Qed.

Lemma checkValid_plain (m rest : string) (stack : list json.parseState)
    (top : bool) (n : nat) :
  plain_text m = true →
  json.checkValid_from (json.Scanner json.stateInString stack top n) (m +:+ rest)
  = json.checkValid_from
      (json.Scanner json.stateInString stack top (n + String.length m)) rest.
Proof.
  revert n. induction m as [|c m IH]; intros n Hplain.
  - simpl. by rewrite Nat.add_0_r.
  - simpl in Hplain. apply andb_true_iff in Hplain as [Hc Hm].
    change (String c m +:+ rest) with (String c (m +:+ rest)).
    cbn [json.checkValid_from json.step json.parseStack json.endTop json.bytes].
    unfold json.apply_step. cbn [json.step].
    rewrite stateInString_plain by done.
    rewrite IH by done. simpl. by rewrite Nat.add_succ_r.
Qed.

Lemma object_from_plain (m rest : string) (n : nat) (key : option string)
    (seg : string) (acc : json.objMap) :
  plain_text m = true →
  json.object_from
    (json.Scanner json.stateInString [json.parseObjectValue] false n) key seg acc
    (m +:+ rest)
  = json.object_from
      (json.Scanner json.stateInString [json.parseObjectValue] false n) key
      (String.rev_app m seg) acc rest.
Proof.
  revert seg. induction m as [|c m IH]; intros seg Hplain; [done|].
  simpl in Hplain. apply andb_true_iff in Hplain as [Hc Hm].
  change (String c m +:+ rest) with (String c (m +:+ rest)).
  cbn [json.object_from]. unfold json.apply_step. cbn [json.step].
  rewrite stateInString_plain by done. cbn [json.parseStack].
  by rewrite IH.
Qed.

Lemma rev_app_rev_app (m seg acc : string) :
  String.rev_app (String.rev_app m seg) acc = String.rev_app seg (m +:+ acc).
Proof.
  revert seg. induction m as [|c m IH]; intros seg; [done|]. simpl.
  by rewrite IH.
Qed.

Lemma Unmarshal_message (m : string) :
  plain_text m = true →
  json.Unmarshal (message_body m) = ({[ "data" := Some (Sample.quoted m) ]}, None).
Proof.
  intros Hplain. unfold json.Unmarshal, json.checkValid.
  rewrite message_body_parts.
  assert (∀ rest,
            json.checkValid_from json.reset
              (("{" +:+ Sample.quoted "data" +:+ ":" +:+ String dquote EmptyString)
                 +:+ rest)
            = json.checkValid_from
                (json.Scanner json.stateInString [json.parseObjectValue] false 9)
                rest) as -> by (intros rest; reflexivity).
  rewrite checkValid_plain by done.
  assert (∀ n, json.checkValid_from
                 (json.Scanner json.stateInString [json.parseObjectValue] false n)
                 (String dquote "}") = None) as -> by (intros n; reflexivity).
  assert (∀ rest,
            json.trimLeft
              (("{" +:+ Sample.quoted "data" +:+ ":" +:+ String dquote EmptyString)
                 +:+ rest)
            = String "{" (Sample.quoted "data" +:+ ":"
                            +:+ String dquote EmptyString +:+ rest)) as ->
    by (intros rest; reflexivity).
  change (is_byte "{" "{") with true. cbv iota.
  assert (∀ rest,
            json.object_from json.reset None EmptyString ∅
              (("{" +:+ Sample.quoted "data" +:+ ":" +:+ String dquote EmptyString)
                 +:+ rest)
            = json.object_from
                (json.Scanner json.stateInString [json.parseObjectValue] false 0)
                (Some "data") (String dquote EmptyString) ∅ rest) as ->
    by (intros rest; reflexivity).
  rewrite object_from_plain by done.
  assert (∀ seg,
            json.object_from
              (json.Scanner json.stateInString [json.parseObjectValue] false 0)
              (Some "data") seg ∅ (String dquote "}")
            = json.storeMember (Some "data") (String dquote seg) ∅) as ->
    by (intros seg; reflexivity).
  unfold json.storeMember, json.trim_rev.
  change (json.trimLeft (String dquote ?s)) with (String dquote s).
  unfold String.rev. cbn [String.rev_app].
  rewrite rev_app_rev_app. cbn [String.rev_app].
  change (json.trimLeft (String dquote ?s)) with (String dquote s).
  change (String.prefix "n" (String dquote ?s)) with false. cbv iota.
  reflexivity.
Qed.

(** X13: for a text [m] of bytes that need no escape in JSON, the body
    whose [data] member is the string [m] decodes without error, and a
    broadcast of it whose scan runs to its end posts the JSON string [m],
    quotes included and byte for byte, to every row of the table and
    answers with status 200. *)
Theorem text_message_round_trip (w : World)
    (ctx : APIGatewayWebsocketProxyRequestContext) (m : string)
    (rows : list dynamodb.Item) :
  plain_text m = true →
  (∀ n, n < length (paginate (pageLimit w) rows) → Scan_err w n = None) →
  Forall has_connectionID rows →
  Forall (answered w (Sample.quoted m)) rows →
  fst (run (sendMessage w {| RequestContext := ctx;
                             awsEvents.Body := message_body m |}) rows)
    = Done ({| StatusCode := 200; Body := "Data sent." |}, None)
  ∧ deliveries (trace (snd (run (sendMessage w {| RequestContext := ctx;
                                                   awsEvents.Body := message_body m |})
                              rows)))
    = (λ item, (receiver item, Sample.quoted m)) <$> rows.
Proof.
  intros Hplain Herr Hattr Hans.
  pose proof (Unmarshal_message m Hplain) as Hbody.
  assert (index_data ({[ "data" := Some (Sample.quoted m) ]} : json.objMap)
          = Some (Sample.quoted m)) as Hd
    by reflexivity.
  set (rq := {| RequestContext := ctx; awsEvents.Body := message_body m |}).
  change (json.Unmarshal (awsEvents.Body rq) = ({[ "data" := Some (Sample.quoted m) ]}, None))
    in Hbody.
  split.
  - by rewrite (sendMessage_complete w rq _ _ rows Hbody Hd Herr Hattr Hans).
  - by destruct (sendMessage_trace w rq _ _ rows Hbody Hd Herr Hattr Hans) as (-> & _).
Qed.

Lemma text_message_round_trip_witness :
  fst (run (sendMessage Sample.calm
              {| RequestContext := Sample.context;
                 awsEvents.Body := message_body "hello, world" |})
         Sample.registry)
    = Done ({| StatusCode := 200; Body := "Data sent." |}, None)
  ∧ deliveries (trace (snd (run (sendMessage Sample.calm
                                   {| RequestContext := Sample.context;
                                      awsEvents.Body := message_body "hello, world" |})
                              Sample.registry)))
    = (λ item, (receiver item, Sample.quoted "hello, world")) <$> Sample.registry.
Proof.
  apply (text_message_round_trip Sample.calm Sample.context "hello, world"
           Sample.registry).
  - reflexivity.
  - intros n _. reflexivity.
  - by_evaluation.
  - by_evaluation.
Defined.

(** ** Tables the handlers build *)

Lemma range_no_panic (w : World) (objMap : json.objMap) (d : json.RawMessage)
    (items : list dynamodb.Item) (st : state) (reason : string) :
  index_data objMap = Some d →
  Forall has_connectionID items →
  fst (range items (eachItem_body w objMap) st) ≠ Panic reason.
Proof.
  intros Hd Hattr. revert st.
  induction Hattr as [|item items Hitem Hattr IH]; intros st; simpl; [done|].
  rewrite bind_run.
  destruct (post w (receiver item) d) as [|e|] eqn:Hpost.
  - rewrite (eachItem_answered w objMap d Hd)
      by (done || unfold answered; by rewrite Hpost).
    apply IH.
  - rewrite (eachItem_answered w objMap d Hd)
      by (done || unfold answered; by rewrite Hpost).
    apply IH.
  - by rewrite (eachItem_unanswered w objMap d Hd).
Qed.

Lemma ScanPages_no_panic (w : World) (objMap : json.objMap) (d : json.RawMessage)
    (pages : list (list dynamodb.Item)) (n : nat) (st : state) (reason : string) :
  index_data objMap = Some d →
  Forall has_connectionID (concat pages) →
  fst (ScanPages_from w n pages (scanCallback w objMap) st) ≠ Panic reason.
Proof.
  intros Hd. revert n st. induction pages as [|page rest IH]; intros n st Hattr;
    simpl in *; [done|].
  apply Forall_app in Hattr as [Hpage Hrest].
  rewrite bind_run, emit_run. destruct (Scan_err w n); [done|].
  rewrite bind_run. unfold scanCallback at 1. simpl. rewrite bind_run.
  pose proof (range_no_panic w objMap d page
                (State (table st) (trace st ++ [Scan n])) reason Hd Hpage) as Hno.
  destruct (range page (eachItem_body w objMap) _) as [[[]| |] st1]; simpl in *;
    [by apply IH | congruence | done].
Qed.

Lemma perform_keyed (rows : list dynamodb.Item) (op : operation) :
  Forall (λ row, ∃ c, row = keyed c) rows →
  Forall (λ row, ∃ c, row = keyed c) (perform rows op).
Proof.
  intros Hrows. destruct op as [w request|w request|w c]; simpl.
  - rewrite connectWorld_run. destruct (PutItem_err w); simpl; [done|].
    apply Forall_app. split; [by apply Forall_without|].
    apply Forall_singleton. by eexists.
  - rewrite disconnectWorld_run. destruct (DeleteItem_err w); simpl; [done|].
    by apply Forall_without.
  - rewrite deleteConnection_run. destruct (DeleteItem_err w); [done|].
    by apply Forall_without.
Qed.

Lemma foldl_perform_keyed (ops : list operation) (rows : list dynamodb.Item) :
  Forall (λ row, ∃ c, row = keyed c) rows →
  Forall (λ row, ∃ c, row = keyed c) (foldl perform rows ops).
Proof.
  revert rows. induction ops as [|op ops IH]; intros rows Hrows; [done|].
  simpl. by apply IH, perform_keyed.
Qed.

(** X14: a table built from the empty table by connects, disconnects and
    cleanup deletes, on backends that work or fail, holds only rows that
    [connectWorld] wrote, each with its [connectionID] string; and on such a
    table a broadcast with a [data] member never panics, whatever the
    backend and the endpoint do. *)
Theorem built_tables_never_panic (ops : list operation) (w : World)
    (request : APIGatewayWebsocketProxyRequest)
    (objMap : json.objMap) (d : json.RawMessage) (reason : string) :
  json.Unmarshal (awsEvents.Body request) = (objMap, None) →
  index_data objMap = Some d →
  Forall (λ row, ∃ c, row = keyed c) (foldl perform [] ops)
  ∧ fst (run (sendMessage w request) (foldl perform [] ops)) ≠ Panic reason.
Proof.
  intros Hbody Hd.
  assert (Forall (λ row, ∃ c, row = keyed c) (foldl perform [] ops)) as Hkeyed
    by (by apply foldl_perform_keyed).
  split; [done|]. unfold run.
  rewrite (sendMessage_scan _ _ _ _ _ Hbody Hd). simpl.
  pose proof (ScanPages_no_panic w objMap d
                (paginate (pageLimit w) (foldl perform [] ops)) 0
                (State (foldl perform [] ops) [endpoint_line request]) reason Hd)
    as Hno.
  rewrite concat_paginate in Hno.
  destruct (ScanPages_from _ _ _ _ _) as [[[e|]| |] st']; simpl in *; try done.
  intros [= ->]. apply Hno; [|done].
  eapply Forall_impl; [exact Hkeyed|]. intros row [c ->].
  eexists. apply lookup_singleton_eq.
Qed.

Lemma built_tables_never_panic_witness :
  fst (run (sendMessage Sample.stalled Sample.hello)
         (foldl perform []
            [Connect Sample.calm Sample.hello; Cleanup Sample.outage "sender"]))
  ≠ Panic nilDereference.
Proof.
  apply (built_tables_never_panic
           [Connect Sample.calm Sample.hello; Cleanup Sample.outage "sender"]
           Sample.stalled Sample.hello Sample.hello_map (Sample.quoted "hello")
           nilDereference).
  - vm_compute. reflexivity.
  - reflexivity.
Defined.

(** ** The directory name in [main] *)

(** [strings.Split(s, sep)] for a separator [sep] of one byte, as
    [string(filepath.Separator)] is: the pieces of [s] between the
    occurrences of [sep], one piece at least. *)
Fixpoint Split (s : string) (sep : byte) : list string :=
  match s with
  | EmptyString => [EmptyString]
  | String c s' =>
      match Split s' sep with
      | piece :: pieces =>
          if is_byte c sep then EmptyString :: piece :: pieces
          else String c piece :: pieces
      | [] => [String c EmptyString]
      end
  end.

(** [dirName[len(dirName)-1]] for [dirName := strings.Split(pathName,
    string(filepath.Separator))], the name [main] derives the stack name
    from; [None] stands for the panic of an index out of range. *)
Definition lastDirName (pathName : string) (Separator : byte) : option string :=
  let dirName := Split pathName Separator in
  match length dirName with
  | O => None
  | Datatypes.S i => dirName !! i
  end.

Lemma is_byte_eq (c d : byte) : is_byte c d = true ↔ c = d.
Proof. unfold is_byte. apply Ascii.eqb_eq. Qed.

(** The pieces put together again with [sep] between them, as
    [strings.Join] does. *)
Fixpoint Join (pieces : list string) (sep : byte) : string :=
  match pieces with
  | [] => EmptyString
  | [piece] => piece
  | piece :: rest => piece +:+ String sep (Join rest sep)
  end.

Lemma Split_nonempty (s : string) (sep : byte) : Split s sep ≠ [].
Proof.
  destruct s as [|c s]; [done|]. cbn [Split].
  destruct (Split s sep); [done|]. by destruct (is_byte c sep).
Qed.

Lemma Join_Split (s : string) (sep : byte) : Join (Split s sep) sep = s.
Proof.
  induction s as [|c s IH]; [done|]. cbn [Split].
  destruct (Split s sep) as [|piece pieces] eqn:Hsplit.
  { by destruct (Split_nonempty s sep). }
  destruct (is_byte c sep) eqn:Hc.
  - apply is_byte_eq in Hc as ->. cbn [Join] in *. by rewrite IH.
  - cbn [Join] in *. destruct pieces; rewrite <- IH; done.
Qed.

Lemma Contains_cons_other (c sep : byte) (piece : string) :
  is_byte c sep = false →
  Contains (String c piece) (String sep EmptyString)
  = Contains piece (String sep EmptyString).
Proof.
  intros Hc. cbn [Contains String.prefix].
  destruct (ascii_dec sep c) as [->|Hne]; [|done].
  unfold is_byte in Hc. by rewrite Ascii.eqb_refl in Hc.
Qed.

Lemma Split_pieces (s : string) (sep : byte) :
  Forall (λ piece, Contains piece (String sep EmptyString) = false) (Split s sep).
Proof.
  induction s as [|c s IH]; [by repeat constructor|]. cbn [Split].
  pose proof (Split_nonempty s sep) as Hne.
  destruct (Split s sep) as [|piece pieces]; [done|].
  inversion_clear IH as [|? ? Hpiece Hpieces].
  destruct (is_byte c sep) eqn:Hc.
  - by repeat constructor.
  - constructor; [|done]. by rewrite Contains_cons_other.
Qed.

Lemma Join_snoc (init : list string) (name : string) (sep : byte) :
  init ≠ [] → Join (init ++ [name]) sep = Join init sep +:+ String sep name.
Proof.
  induction init as [|piece init IH]; [done|]. intros _.
  destruct init as [|piece' init]; [done|].
  change (piece +:+ String sep (Join ((piece' :: init) ++ [name]) sep)
          = (piece +:+ String sep (Join (piece' :: init) sep)) +:+ String sep name).
  rewrite IH by done. by rewrite append_assoc.
Qed.

(** X15: the index [dirName[len(dirName)-1]] in [main] is never out of
    range, whatever the working directory (the empty path of a failed
    [os.Getwd] included); the name it yields contains no separator and is
    the end of the path: the whole path, or what follows its last
    separator. *)
Theorem lastDirName_is_base_name (pathName : string) (Separator : byte) :
  ∃ name,
    lastDirName pathName Separator = Some name
    ∧ Contains name (String Separator EmptyString) = false
    ∧ (pathName = name ∨ ∃ dir, pathName = dir +:+ String Separator name).
Proof.
  unfold lastDirName.
  pose proof (Split_nonempty pathName Separator) as Hne.
  pose proof (Split_pieces pathName Separator) as Hpieces.
  pose proof (Join_Split pathName Separator) as Hjoin.
  destruct (Split pathName Separator) as [|piece pieces _] using rev_ind; [done|].
  clear Hne. exists piece. rewrite length_app. simpl. rewrite Nat.add_1_r.
  split; [by apply list_lookup_middle|]. split.
  - by apply Forall_app in Hpieces as [_ [Hlast _]%Forall_cons].
  - destruct pieces as [|first init']; [by left|]. right.
    rewrite Join_snoc in Hjoin by done. by eexists.
Qed.

(** ** An empty body *)

Fixpoint blank (s : string) : bool :=
  match s with
  | EmptyString => true
  | String c s' => json.isSpace c && blank s'
  end.

Lemma checkValid_blank (s : string) (n : nat) :
  blank s = true →
  json.checkValid_from (json.Scanner json.stateBeginValue [] false n) s
  = Some {| json.msg := "unexpected end of JSON input";
            json.Offset := n + String.length s |}.
Proof.
  revert n. induction s as [|c s IH]; intros n Hblank.
  - simpl. by rewrite Nat.add_0_r.
  - simpl in Hblank. apply andb_true_iff in Hblank as [Hc Hs].
    cbn [json.checkValid_from json.step json.parseStack json.endTop json.bytes].
    unfold json.apply_step. cbn [json.step]. unfold json.stateBeginValue_fn.
    rewrite Hc, IH by done. simpl. by rewrite Nat.add_succ_r.
Qed.

(** X16: a body that is empty, or made of white space only, is answered
    with status 500 and [Failed to unmarshal request: unexpected end of
    JSON input]; the table is not read and nothing is posted. *)
Theorem sendMessage_blank_body (w : World)
    (ctx : APIGatewayWebsocketProxyRequestContext) (body : string)
    (rows : list dynamodb.Item) :
  blank body = true →
  run (sendMessage w {| RequestContext := ctx; awsEvents.Body := body |}) rows
  = (Done ({| StatusCode := 500;
              Body := "Failed to unmarshal request: unexpected end of JSON input" |},
           None),
     State rows [endpoint_line {| RequestContext := ctx; awsEvents.Body := body |}]).
Proof.
  intros Hblank. unfold run.
  rewrite (sendMessage_unmarshal_error w _ ∅ "unexpected end of JSON input");
    [done|].
  unfold json.Unmarshal, json.checkValid, json.reset. simpl awsEvents.Body.
  by rewrite checkValid_blank.
Qed.

Lemma sendMessage_blank_body_witness :
  run (sendMessage Sample.calm (Sample.with_body EmptyString)) Sample.registry
  = (Done ({| StatusCode := 500;
              Body := "Failed to unmarshal request: unexpected end of JSON input" |},
           None),
     State Sample.registry [endpoint_line (Sample.with_body EmptyString)]).
Proof.
  apply (sendMessage_blank_body Sample.calm Sample.context EmptyString
           Sample.registry).
  reflexivity.
Defined.
